(** * Scoring and derived-metrics engine of the CRM backend

    A shallow embedding of the calculators found in
    [ultimate-crm/backend/app/models/{lead,customer,campaign,invoice,opportunity}.py]
    together with the properties stated about them.

    Conventions of the embedding.
    - Python [int] columns are [Z]; nullable columns are [option].
    - [Numeric] columns and every other non-integer quantity are exact
      rationals in canonical form ([Qc]), so that [=] is numeric equality.
      The float literal [0.4] is the rational [2/5] and the true division
      of two integers is the exact quotient.  Rounding is outside the
      model.  Where a method mixes [int], [float] and [decimal.Decimal]
      operands, the values carry their Python type ([PyNum]) and adding or
      multiplying a [float] and a [Decimal] raises [TypeError].
    - A [DateTime] is a number of microseconds on the UTC time line, and
      [datetime.utcnow()] is an explicit argument.
    - A method that assigns to [self] is a function from the record to the
      updated record (paired with the returned value when there is one). *)

From Stdlib Require Import ZArith QArith Qcanon List String Ascii Bool Lia Lqa.
Import ListNotations.

Local Open Scope Z_scope.

(** ** The fragment of Python the models rely on *)

Module Py.

Definition Decimal := Qc.

Definition of_int (z : Z) : Decimal := Q2Qc (inject_Z z).

(** [decimal c d] is the number written with coefficient [c] over [d],
    e.g. [decimal 20412 100] for 204.12. *)
Definition decimal (c : Z) (d : positive) : Decimal := Q2Qc (c # d).

Definition eqb (x y : Decimal) : bool := Qeq_bool x y.

Definition ltb (x y : Decimal) : bool :=
  match (x ?= y)%Qc with Lt => true | _ => false end.

Definition leb (x y : Decimal) : bool :=
  match (x ?= y)%Qc with Gt => false | _ => true end.

(** [bool(x)] of an optional number: [None] and zero are false. *)
Definition truthy (x : option Decimal) : bool :=
  match x with
  | Some v => negb (eqb v (of_int 0))
  | None => false
  end.

Definition truthy_int (x : option Z) : bool :=
  match x with
  | Some v => negb (v =? 0)
  | None => false
  end.

(** [x or 0] *)
Definition or0 (x : option Decimal) : Decimal :=
  match x with
  | Some v => if eqb v (of_int 0) then of_int 0 else v
  | None => of_int 0
  end.

(** [min(a, b)]: the first argument unless the second is strictly less. *)
Definition min (a b : Decimal) : Decimal := if ltb b a then b else a.

(** [sum(xs)]: starts from [0] and adds from the left. *)
Definition sum (xs : list Decimal) : Decimal :=
  fold_left Qcplus xs (of_int 0).

(** [a / b] on integers; [None] stands for [ZeroDivisionError]. *)
Definition truediv (a b : Z) : option Decimal :=
  if b =? 0 then None else Some (of_int a / of_int b)%Qc.

(** [(now - then).days]: a [timedelta] is normalised so that [days] is the
    floor of the difference over one day. *)
Definition microseconds_per_day : Z := 86400 * 1000000.

Definition days_between (now before : Z) : Z :=
  (now - before) / microseconds_per_day.

(** [str.lower] on the ASCII range. *)
Definition lower_ascii (c : ascii) : ascii :=
  let n := nat_of_ascii c in
  if andb (Nat.leb 65 n) (Nat.leb n 90) then ascii_of_nat (n + 32) else c.

Fixpoint lower (s : string) : string :=
  match s with
  | EmptyString => EmptyString
  | String c s' => String (lower_ascii c) (lower s')
  end.

(** [sub in s] *)
Fixpoint contains (sub s : string) : bool :=
  if prefix sub s then true
  else match s with
       | EmptyString => false
       | String _ s' => contains sub s'
       end.

Definition str_in (x : option string) (xs : list string) : bool :=
  match x with
  | Some v => existsb (String.eqb v) xs
  | None => false
  end.

End Py.

(** ** The error monad

    A computation that may raise returns an [option]: [None] is the
    uncaught exception. *)

Definition bind {A B : Type} (m : option A) (k : A -> option B) : option B :=
  match m with
  | Some a => k a
  | None => None
  end.

Notation "x <- m ;; k" := (bind m (fun x => k))
  (at level 61, m at next level, right associativity).

(** ** Numbers with their Python type

    An [int], a [float] or a [decimal.Decimal].  Arithmetic between an
    [int] and either of the other two gives the other type; between a
    [float] and a [Decimal] it raises [TypeError].  The result [None] of an
    operation is the exception it raises. *)

Module PyNum.

Inductive t :=
| Int (z : Z)
| Float (x : Py.Decimal)
| Dec (d : Py.Decimal).

Definition value (n : t) : Py.Decimal :=
  match n with
  | Int z => Py.of_int z
  | Float x => x
  | Dec d => d
  end.

(** [a + b] *)
Definition add (a b : t) : option t :=
  match a, b with
  | Int x, Int y => Some (Int (x + y))
  | Int x, Float y => Some (Float (Py.of_int x + y)%Qc)
  | Float x, Int y => Some (Float (x + Py.of_int y)%Qc)
  | Float x, Float y => Some (Float (x + y)%Qc)
  | Int x, Dec y => Some (Dec (Py.of_int x + y)%Qc)
  | Dec x, Int y => Some (Dec (x + Py.of_int y)%Qc)
  | Dec x, Dec y => Some (Dec (x + y)%Qc)
  | Float _, Dec _ | Dec _, Float _ => None
  end.

(** [a * b] *)
Definition mul (a b : t) : option t :=
  match a, b with
  | Int x, Int y => Some (Int (x * y))
  | Int x, Float y => Some (Float (Py.of_int x * y)%Qc)
  | Float x, Int y => Some (Float (x * Py.of_int y)%Qc)
  | Float x, Float y => Some (Float (x * y)%Qc)
  | Int x, Dec y => Some (Dec (Py.of_int x * y)%Qc)
  | Dec x, Int y => Some (Dec (x * Py.of_int y)%Qc)
  | Dec x, Dec y => Some (Dec (x * y)%Qc)
  | Float _, Dec _ | Dec _, Float _ => None
  end.

(** [a / b]: the quotient of two [int]s is a [float]; a zero divisor
    raises as well. *)
Definition truediv (a b : t) : option t :=
  if Py.eqb (value b) (Py.of_int 0) then None
  else
    match a, b with
    | Int _, Int _ | Int _, Float _ | Float _, Int _ | Float _, Float _ =>
        Some (Float (value a / value b)%Qc)
    | Int _, Dec _ | Dec _, Int _ | Dec _, Dec _ =>
        Some (Dec (value a / value b)%Qc)
    | Float _, Dec _ | Dec _, Float _ => None
    end.

(** [a < b] compares the numbers, whatever their types. *)
Definition lt (a b : t) : bool := Py.ltb (value a) (value b).

(** [min(a, b)]: the first argument, with its type, unless the second is
    strictly less. *)
Definition min (a b : t) : t := if lt b a then b else a.

(** [float(d)] of a [Decimal]. *)
Definition to_float (d : Py.Decimal) : t := Float d.

End PyNum.

(** ** [models/lead.py] *)

Module Lead.

Inductive LeadQuality := HOT | WARM | COLD.

Record t := mk {
  company_size : option string;
  annual_revenue : option Py.Decimal;
  job_title : option string;
  website_visits : Z;
  email_opens : Z;
  email_clicks : Z;
  total_interactions : Z;
  last_contact_date : option Z;
  quality : option LeadQuality;
  lead_score : option Z;
  demographic_score : option Z;
  behavioral_score : option Z;
  engagement_score : option Z
}.

Definition revenue_above (self : t) (bound : Z) : bool :=
  andb (Py.truthy (annual_revenue self))
       (match annual_revenue self with
        | Some r => Py.ltb (Py.of_int bound) r
        | None => false
        end).

Definition senior_title (self : t) : bool :=
  match job_title self with
  | Some j =>
      andb (negb (String.eqb j EmptyString))
           (existsb (fun title => Py.contains title (Py.lower j))
                    ["ceo"; "cto"; "manager"; "director"]%string)
  | None => false
  end.

(** Lines 134-146. *)
Definition demographic_points (self : t) : Z :=
  let demographic_score := 0 in
  let demographic_score :=
    if Py.str_in (company_size self) ["Large"; "Enterprise"]%string
    then demographic_score + 10
    else if Py.str_in (company_size self) ["Medium"]%string
    then demographic_score + 5
    else demographic_score in
  let demographic_score :=
    if revenue_above self 1000000 then demographic_score + 10
    else if revenue_above self 100000 then demographic_score + 5
    else demographic_score in
  if senior_title self then demographic_score + 10 else demographic_score.

(** Lines 149-165. *)
Definition behavioral_points (self : t) : Z :=
  let behavioral_score := 0 in
  let behavioral_score :=
    if website_visits self >? 10 then behavioral_score + 15
    else if website_visits self >? 5 then behavioral_score + 10
    else if website_visits self >? 0 then behavioral_score + 5
    else behavioral_score in
  let behavioral_score :=
    if email_opens self >? 5 then behavioral_score + 10
    else if email_opens self >? 2 then behavioral_score + 5
    else behavioral_score in
  if email_clicks self >? 3 then behavioral_score + 15
  else if email_clicks self >? 0 then behavioral_score + 10
  else behavioral_score.

(** Lines 168-182. *)
Definition engagement_points (self : t) (utcnow : Z) : Z :=
  let engagement_score := 0 in
  let engagement_score :=
    if total_interactions self >? 10 then engagement_score + 20
    else if total_interactions self >? 5 then engagement_score + 15
    else if total_interactions self >? 0 then engagement_score + 10
    else engagement_score in
  match last_contact_date self with
  | Some d =>
      let days_since_contact := Py.days_between utcnow d in
      if days_since_contact <=? 7 then engagement_score + 10
      else if days_since_contact <=? 30 then engagement_score + 5
      else engagement_score
  | None => engagement_score
  end.

(** Lines 194-199. *)
Definition quality_for (lead_score : Z) : LeadQuality :=
  if lead_score >=? 80 then HOT
  else if lead_score >=? 50 then WARM
  else COLD.

(** [calculate_lead_score]: the updated lead and the returned score. *)
Definition calculate_lead_score (self : t) (utcnow : Z) : t * Z :=
  let d := Z.min (demographic_points self) 30 in
  let b := Z.min (behavioral_points self) 40 in
  let e := Z.min (engagement_points self utcnow) 30 in
  let total_score := d + b + e in
  let score := Z.min total_score 100 in
  ({| company_size := company_size self;
      annual_revenue := annual_revenue self;
      job_title := job_title self;
      website_visits := website_visits self;
      email_opens := email_opens self;
      email_clicks := email_clicks self;
      total_interactions := total_interactions self;
      last_contact_date := last_contact_date self;
      quality := Some (quality_for score);
      lead_score := Some score;
      demographic_score := Some d;
      behavioral_score := Some b;
      engagement_score := Some e |},
   score).

(** Order of the tiers: cold < warm < hot. *)
Definition tier (q : LeadQuality) : Z :=
  match q with COLD => 0 | WARM => 1 | HOT => 2 end.

End Lead.

(** ** [models/customer.py] *)

Module Customer.

Record t := mk {
  lifetime_value : option Py.Decimal;
  total_revenue : option Py.Decimal;
  total_orders : Z;
  last_contact_date : option Z;
  last_purchase_date : option Z;
  engagement_score : option Z;
  satisfaction_score : option Py.Decimal;
  churn_risk_score : option Py.Decimal
}.

(** Lines 147-149: [score += min(self.engagement_score * 0.4, 40)].  The
    product is a [float]; [min] gives it back unless it exceeds the [int]
    40. *)
Definition add_engagement (self : t) (score : PyNum.t) : option PyNum.t :=
  match engagement_score self with
  | Some e =>
      if Py.truthy_int (Some e)
      then x <- PyNum.mul (PyNum.Int e) (PyNum.Float (Py.decimal 4 10)) ;;
           PyNum.add score (PyNum.min x (PyNum.Int 40))
      else Some score
  | None => Some score
  end.

(** Lines 151-153: [score += self.satisfaction_score * 2], a [Decimal]. *)
Definition add_satisfaction (self : t) (score : PyNum.t) : option PyNum.t :=
  match satisfaction_score self with
  | Some s =>
      if Py.truthy (Some s)
      then y <- PyNum.mul (PyNum.Dec s) (PyNum.Int 2) ;; PyNum.add score y
      else Some score
  | None => Some score
  end.

(** Lines 155-161. *)
Definition add_recency (self : t) (utcnow : Z) (score : PyNum.t)
  : option PyNum.t :=
  match last_contact_date self with
  | Some d =>
      let days_since_contact := Py.days_between utcnow d in
      if days_since_contact <=? 30 then PyNum.add score (PyNum.Int 20)
      else if days_since_contact <=? 90 then PyNum.add score (PyNum.Int 10)
      else Some score
  | None => Some score
  end.

(** Lines 163-165: [score += min(float(self.total_revenue) / 1000, 20)]. *)
Definition add_revenue (self : t) (score : PyNum.t) : option PyNum.t :=
  match total_revenue self with
  | Some r =>
      if andb (Py.truthy (Some r)) (Py.ltb (Py.of_int 0) r)
      then q <- PyNum.truediv (PyNum.to_float r) (PyNum.Int 1000) ;;
           PyNum.add score (PyNum.min q (PyNum.Int 20))
      else Some score
  | None => Some score
  end.

(** Lines 143-167.  [calculate_health_score] reads [self] and assigns
    nothing; [None] is the [TypeError] of adding a [float] and a
    [Decimal]. *)
Definition calculate_health_score (self : t) (utcnow : Z)
  : option PyNum.t :=
  let score := PyNum.Int 0 in
  score <- add_engagement self score ;;
  score <- add_satisfaction self score ;;
  score <- add_recency self utcnow score ;;
  score <- add_revenue self score ;;
  Some (PyNum.min score (PyNum.Int 100)).

End Customer.

(** ** [models/campaign.py] *)

(** The rate computations divide; they live in the error monad, where
    [None] is an uncaught [ZeroDivisionError]. *)

(** [(a / b) * 100] *)
Definition percentage (a b : Z) : option Py.Decimal :=
  r <- Py.truediv a b ;; Some (r * Py.of_int 100)%Qc.

Module Campaign.

Record t := mk {
  actual_cost : option Py.Decimal;
  audience_size : option Z;
  sent_count : Z;
  delivered_count : Z;
  opened_count : Z;
  clicked_count : Z;
  converted_count : Z;
  unsubscribed_count : Z;
  delivery_rate : option Py.Decimal;
  open_rate : option Py.Decimal;
  click_rate : option Py.Decimal;
  conversion_rate : option Py.Decimal;
  roi : option Py.Decimal
}.

Definition set_delivery_rate (v : Py.Decimal) (c : t) : t :=
  mk (actual_cost c) (audience_size c) (sent_count c) (delivered_count c)
     (opened_count c) (clicked_count c) (converted_count c)
     (unsubscribed_count c)
     (Some v) (open_rate c) (click_rate c) (conversion_rate c) (roi c).

Definition set_open_rate (v : Py.Decimal) (c : t) : t :=
  mk (actual_cost c) (audience_size c) (sent_count c) (delivered_count c)
     (opened_count c) (clicked_count c) (converted_count c)
     (unsubscribed_count c)
     (delivery_rate c) (Some v) (click_rate c) (conversion_rate c) (roi c).

Definition set_click_rate (v : Py.Decimal) (c : t) : t :=
  mk (actual_cost c) (audience_size c) (sent_count c) (delivered_count c)
     (opened_count c) (clicked_count c) (converted_count c)
     (unsubscribed_count c)
     (delivery_rate c) (open_rate c) (Some v) (conversion_rate c) (roi c).

Definition set_conversion_rate (v : Py.Decimal) (c : t) : t :=
  mk (actual_cost c) (audience_size c) (sent_count c) (delivered_count c)
     (opened_count c) (clicked_count c) (converted_count c)
     (unsubscribed_count c)
     (delivery_rate c) (open_rate c) (click_rate c) (Some v) (roi c).

(** Lines 121-139.  The last [if] only guards a [pass]. *)
Definition calculate_metrics (self : t) : option t :=
  self <- (if sent_count self >? 0
           then r <- percentage (delivered_count self) (sent_count self) ;;
                Some (set_delivery_rate r self)
           else Some self) ;;
  self <- (if delivered_count self >? 0
           then r <- percentage (opened_count self) (delivered_count self) ;;
                Some (set_open_rate r self)
           else Some self) ;;
  self <- (if opened_count self >? 0
           then r <- percentage (clicked_count self) (opened_count self) ;;
                Some (set_click_rate r self)
           else Some self) ;;
  self <- (if clicked_count self >? 0
           then r <- percentage (converted_count self) (clicked_count self) ;;
                Some (set_conversion_rate r self)
           else Some self) ;;
  if andb (Py.truthy (actual_cost self))
          (match actual_cost self with
           | Some c => Py.ltb (Py.of_int 0) c
           | None => false
           end)
  then Some self
  else Some self.

End Campaign.

Module CampaignMetric.

Record t := mk {
  metric_date : Z;
  sent_count : Z;
  delivered_count : Z;
  opened_count : Z;
  clicked_count : Z;
  converted_count : Z;
  unsubscribed_count : Z;
  bounced_count : Z;
  cost : option Py.Decimal;
  delivery_rate : option Py.Decimal;
  open_rate : option Py.Decimal;
  click_rate : option Py.Decimal;
  conversion_rate : option Py.Decimal
}.

Definition set_delivery_rate (v : Py.Decimal) (c : t) : t :=
  mk (metric_date c) (sent_count c) (delivered_count c) (opened_count c)
     (clicked_count c) (converted_count c) (unsubscribed_count c)
     (bounced_count c) (cost c)
     (Some v) (open_rate c) (click_rate c) (conversion_rate c).

Definition set_open_rate (v : Py.Decimal) (c : t) : t :=
  mk (metric_date c) (sent_count c) (delivered_count c) (opened_count c)
     (clicked_count c) (converted_count c) (unsubscribed_count c)
     (bounced_count c) (cost c)
     (delivery_rate c) (Some v) (click_rate c) (conversion_rate c).

Definition set_click_rate (v : Py.Decimal) (c : t) : t :=
  mk (metric_date c) (sent_count c) (delivered_count c) (opened_count c)
     (clicked_count c) (converted_count c) (unsubscribed_count c)
     (bounced_count c) (cost c)
     (delivery_rate c) (open_rate c) (Some v) (conversion_rate c).

Definition set_conversion_rate (v : Py.Decimal) (c : t) : t :=
  mk (metric_date c) (sent_count c) (delivered_count c) (opened_count c)
     (clicked_count c) (converted_count c) (unsubscribed_count c)
     (bounced_count c) (cost c)
     (delivery_rate c) (open_rate c) (click_rate c) (Some v).

(** Lines 243-255. *)
Definition calculate_rates (self : t) : option t :=
  self <- (if sent_count self >? 0
           then r <- percentage (delivered_count self) (sent_count self) ;;
                Some (set_delivery_rate r self)
           else Some self) ;;
  self <- (if delivered_count self >? 0
           then r <- percentage (opened_count self) (delivered_count self) ;;
                Some (set_open_rate r self)
           else Some self) ;;
  self <- (if opened_count self >? 0
           then r <- percentage (clicked_count self) (opened_count self) ;;
                Some (set_click_rate r self)
           else Some self) ;;
  if clicked_count self >? 0
  then r <- percentage (converted_count self) (clicked_count self) ;;
       Some (set_conversion_rate r self)
  else Some self.

End CampaignMetric.

(** ** [models/invoice.py] *)

Module InvoiceItem.

Record t := mk {
  quantity : Py.Decimal;
  unit_price : Py.Decimal;
  discount_percent : option Py.Decimal;
  discount_amount : option Py.Decimal;
  total_amount : Py.Decimal;
  tax_rate : option Py.Decimal;
  tax_amount : option Py.Decimal;
  sort_order : Z
}.

Definition set_discount_amount (v : Py.Decimal) (i : t) : t :=
  mk (quantity i) (unit_price i) (discount_percent i) (Some v)
     (total_amount i) (tax_rate i) (tax_amount i) (sort_order i).

Definition set_tax_amount (v : Py.Decimal) (i : t) : t :=
  mk (quantity i) (unit_price i) (discount_percent i) (discount_amount i)
     (total_amount i) (tax_rate i) (Some v) (sort_order i).

Definition set_total_amount (v : Py.Decimal) (i : t) : t :=
  mk (quantity i) (unit_price i) (discount_percent i) (discount_amount i)
     v (tax_rate i) (tax_amount i) (sort_order i).

(** Lines 183-198: the updated item and the returned total. *)
Definition calculate_total (self : t) : t * Py.Decimal :=
  let subtotal := (quantity self * unit_price self)%Qc in
  let self :=
    match discount_percent self with
    | Some p =>
        if Py.truthy (Some p)
        then set_discount_amount (subtotal * (p / Py.of_int 100))%Qc self
        else self
    | None => self
    end in
  let amount_after_discount :=
    (subtotal - Py.or0 (discount_amount self))%Qc in
  let self :=
    match tax_rate self with
    | Some r =>
        if Py.truthy (Some r)
        then set_tax_amount
               (amount_after_discount * (r / Py.of_int 100))%Qc self
        else self
    | None => self
    end in
  let self :=
    set_total_amount
      (amount_after_discount + Py.or0 (tax_amount self))%Qc self in
  (self, total_amount self).

End InvoiceItem.

Module Invoice.

Inductive InvoiceStatus :=
| DRAFT | SENT | VIEWED | PAID | PARTIALLY_PAID
| OVERDUE | CANCELLED | REFUNDED.

(** What a [DateTime] attribute can hold: a point in time, or the SQL
    expression [func.now()] that the database evaluates at flush. *)
Inductive DateValue :=
| At (microseconds : Z)
| FuncNow.

Record t := mk {
  status : InvoiceStatus;
  subtotal : Py.Decimal;
  tax_amount : Py.Decimal;
  discount_amount : Py.Decimal;
  total_amount : Py.Decimal;
  paid_amount : Py.Decimal;
  due_amount : Py.Decimal;
  tax_rate : Py.Decimal;
  paid_date : option DateValue;
  items : list InvoiceItem.t
}.

Definition set_status (v : InvoiceStatus) (i : t) : t :=
  mk v (subtotal i) (tax_amount i) (discount_amount i) (total_amount i)
     (paid_amount i) (due_amount i) (tax_rate i) (paid_date i) (items i).

Definition set_subtotal (v : Py.Decimal) (i : t) : t :=
  mk (status i) v (tax_amount i) (discount_amount i) (total_amount i)
     (paid_amount i) (due_amount i) (tax_rate i) (paid_date i) (items i).

Definition set_tax_amount (v : Py.Decimal) (i : t) : t :=
  mk (status i) (subtotal i) v (discount_amount i) (total_amount i)
     (paid_amount i) (due_amount i) (tax_rate i) (paid_date i) (items i).

Definition set_total_amount (v : Py.Decimal) (i : t) : t :=
  mk (status i) (subtotal i) (tax_amount i) (discount_amount i) v
     (paid_amount i) (due_amount i) (tax_rate i) (paid_date i) (items i).

Definition set_paid_amount (v : Py.Decimal) (i : t) : t :=
  mk (status i) (subtotal i) (tax_amount i) (discount_amount i)
     (total_amount i) v (due_amount i) (tax_rate i) (paid_date i) (items i).

Definition set_due_amount (v : Py.Decimal) (i : t) : t :=
  mk (status i) (subtotal i) (tax_amount i) (discount_amount i)
     (total_amount i) (paid_amount i) v (tax_rate i) (paid_date i) (items i).

Definition set_paid_date (v : DateValue) (i : t) : t :=
  mk (status i) (subtotal i) (tax_amount i) (discount_amount i)
     (total_amount i) (paid_amount i) (due_amount i) (tax_rate i) (Some v)
     (items i).

(** Lines 117-122. *)
Definition calculate_totals (self : t) : t :=
  let self :=
    set_subtotal (Py.sum (map InvoiceItem.total_amount (items self))) self in
  let self :=
    set_tax_amount (subtotal self * (tax_rate self / Py.of_int 100))%Qc
                   self in
  let self :=
    set_total_amount
      (subtotal self + tax_amount self - discount_amount self)%Qc self in
  set_due_amount (total_amount self - paid_amount self)%Qc self.

(** Lines 124-134. *)
Definition add_payment (self : t) (amount : Py.Decimal) : t :=
  let self := set_paid_amount (paid_amount self + amount)%Qc self in
  let self :=
    set_due_amount (total_amount self - paid_amount self)%Qc self in
  if Py.leb (due_amount self) (Py.of_int 0)
  then set_paid_date FuncNow (set_status PAID self)
  else if Py.ltb (Py.of_int 0) (paid_amount self)
  then set_status PARTIALLY_PAID self
  else self.

End Invoice.

Module Payment.

Record t := mk {
  amount : Py.Decimal;
  gateway_fee : option Py.Decimal;
  net_amount : option Py.Decimal
}.

(** Lines 249-252. *)
Definition calculate_net_amount (self : t) : t * Py.Decimal :=
  let net := (amount self - Py.or0 (gateway_fee self))%Qc in
  (mk (amount self) (gateway_fee self) (Some net), net).

End Payment.

(** ** [models/opportunity.py] *)

Module Opportunity.

Record t := mk {
  amount : option Py.Decimal;
  probability : Z;
  weighted_amount : option Py.Decimal
}.

(** Lines 113-119: the updated opportunity and the value returned, or
    the opportunity as it was and [None] when the product of the [Decimal]
    amount and the [float] [probability / 100] raises [TypeError]. *)
Definition calculate_weighted_amount (self : t) : t * option PyNum.t :=
  match amount self with
  | Some a =>
      if andb (Py.truthy (Some a)) (negb (probability self =? 0))
      then
        match ratio <- PyNum.truediv (PyNum.Int (probability self))
                                     (PyNum.Int 100) ;;
              PyNum.mul (PyNum.Dec a) ratio
        with
        | Some w =>
            (mk (amount self) (probability self) (Some (PyNum.value w)),
             Some w)
        | None => (self, None)
        end
      else (mk (amount self) (probability self) (Some (Py.of_int 0)),
            Some (PyNum.Int 0))
  | None => (mk (amount self) (probability self) (Some (Py.of_int 0)),
             Some (PyNum.Int 0))
  end.

End Opportunity.

(** ** List-valued attributes: tags, features, competitors, permissions *)

Module PyList.

(** [x in xs] *)
Definition mem (x : string) (xs : list string) : bool :=
  existsb (String.eqb x) xs.

(** [xs.remove(x)]: drops the first element equal to [x]; [None] stands
    for the [ValueError] raised when there is none. *)
Fixpoint remove (x : string) (xs : list string) : option (list string) :=
  match xs with
  | [] => None
  | y :: ys =>
      if String.eqb y x then Some ys
      else ys' <- remove x ys ;; Some (y :: ys')
  end.

End PyList.

(** [add_tag] and [remove_tag] have the same body on [Lead], [Customer],
    [Campaign], [Opportunity], [Product], [Ticket] and [Task]; so have
    [add_feature] / [remove_feature] on [Product] and [add_competitor] /
    [remove_competitor] on [Opportunity], on their own attribute.  They read
    and assign that attribute only, a nullable JSON array.  [None] as a
    result is the [TypeError] of testing membership in [None]. *)
Module Tagged.

Record t := mk { tags : option (list string) }.

Definition add_tag (self : t) (tag : string) : option t :=
  match tags self with
  | None => None
  | Some ts =>
      if negb (PyList.mem tag ts) then Some (mk (Some (ts ++ [tag])))
      else Some self
  end.

Definition remove_tag (self : t) (tag : string) : option t :=
  match tags self with
  | None => None
  | Some ts =>
      if PyList.mem tag ts
      then tags_list <- PyList.remove tag ts ;; Some (mk (Some tags_list))
      else Some self
  end.

End Tagged.

(** ** [models/user.py] *)

Module Role.

Record t := mk {
  name : string;
  is_active : bool;
  is_system_role : bool;
  permissions : list string
}.

Definition set_permissions (v : list string) (r : t) : t :=
  mk (name r) (is_active r) (is_system_role r) v.

(** Lines 134-137. *)
Definition add_permission (self : t) (permission : string) : t :=
  if negb (PyList.mem permission (permissions self))
  then set_permissions (permissions self ++ [permission]) self
  else self.

(** Lines 139-144; [None] is an uncaught [ValueError]. *)
Definition remove_permission (self : t) (permission : string) : option t :=
  if PyList.mem permission (permissions self)
  then permissions_list <- PyList.remove permission (permissions self) ;;
       Some (set_permissions permissions_list self)
  else Some self.

(** Lines 146-148. *)
Definition has_permission (self : t) (permission : string) : bool :=
  PyList.mem permission (permissions self).

End Role.

Module User.

Record t := mk {
  is_active : bool;
  is_superuser : bool;
  failed_login_attempts : Z;
  locked_until : option Z;
  roles : list Role.t
}.

(** Lines 85-90. *)
Definition is_locked (self : t) (utcnow : Z) : bool :=
  match locked_until self with
  | Some until => utcnow <? until
  | None => false
  end.

(** Lines 92-94. *)
Definition has_role (self : t) (role_name : string) : bool :=
  existsb (fun role => String.eqb (Role.name role) role_name) (roles self).

(** Lines 96-101: the loop returns at the first role that holds the
    permission. *)
Fixpoint any_role_permits (rs : list Role.t) (permission_name : string)
  : bool :=
  match rs with
  | [] => false
  | role :: rest =>
      if PyList.mem permission_name (Role.permissions role) then true
      else any_role_permits rest permission_name
  end.

Definition has_permission (self : t) (permission_name : string) : bool :=
  any_role_permits (roles self) permission_name.

End User.

Module UserRole.

Record t := mk {
  expires_at : option Z;
  is_active : bool
}.

(** Lines 179-184. *)
Definition is_expired (self : t) (utcnow : Z) : bool :=
  match expires_at self with
  | Some at_ => utcnow >? at_
  | None => false
  end.

End UserRole.

(** ** [models/product.py] *)

Module Product.

Record t := mk {
  track_inventory : bool;
  stock_quantity : option Z;
  low_stock_threshold : option Z
}.

(** [a <= b] where [a] may be [None]: comparing [None] with an [int]
    raises [TypeError], here [None]. *)
Definition le_int (a : option Z) (b : Z) : option bool :=
  match a with
  | Some x => Some (x <=? b)
  | None => None
  end.

(** Lines 102-107. *)
Definition is_low_stock (self : t) : option bool :=
  match low_stock_threshold self with
  | Some threshold =>
      if andb (track_inventory self) (Py.truthy_int (Some threshold))
      then le_int (stock_quantity self) threshold
      else Some false
  | None => Some false
  end.

(** Lines 109-114. *)
Definition is_out_of_stock (self : t) : option bool :=
  if track_inventory self then le_int (stock_quantity self) 0
  else Some false.

End Product.

Module PricingTier.

Record t := mk {
  min_quantity : Z;
  max_quantity : option Z;
  unit_price : Py.Decimal;
  setup_fee : option Py.Decimal;
  recurring_fee : option Py.Decimal
}.

(** Lines 236-247.  [None] is the value the method returns for a quantity
    outside the tier. *)
Definition calculate_price (self : t) (quantity : Z) : option Py.Decimal :=
  if match max_quantity self with
     | Some m => andb (Py.truthy_int (Some m)) (quantity >? m)
     | None => false
     end
  then None
  else if quantity <? min_quantity self then None
  else
    let base_price := (Py.of_int quantity * unit_price self)%Qc in
    let total_price := (base_price + Py.or0 (setup_fee self))%Qc in
    Some total_price.

End PricingTier.

(** ** [models/opportunity.py], continued *)

Module OpportunityProduct.

Record t := mk {
  quantity : Z;
  unit_price : Py.Decimal;
  discount_percent : option Py.Decimal;
  discount_amount : option Py.Decimal;
  total_amount : Py.Decimal
}.

(** Lines 234-242. *)
Definition calculate_total (self : t) : t * Py.Decimal :=
  let subtotal := (Py.of_int (quantity self) * unit_price self)%Qc in
  let self :=
    match discount_percent self with
    | Some p =>
        if Py.truthy (Some p)
        then mk (quantity self) (unit_price self) (discount_percent self)
                (Some (subtotal * (p / Py.of_int 100))%Qc)
                (total_amount self)
        else self
    | None => self
    end in
  let self :=
    mk (quantity self) (unit_price self) (discount_percent self)
       (discount_amount self)
       (subtotal - Py.or0 (discount_amount self))%Qc in
  (self, total_amount self).

End OpportunityProduct.

(** The dates [calculate_sales_cycle] works on. *)
Module OpportunityDates.

Record t := mk {
  created_at : option Z;
  actual_close_date : option Z;
  sales_cycle_days : option Z
}.

(** Lines 121-125. *)
Definition calculate_sales_cycle (self : t) : t * option Z :=
  let self :=
    match actual_close_date self, created_at self with
    | Some closed, Some created =>
        mk (created_at self) (actual_close_date self)
           (Some (Py.days_between closed created))
    | _, _ => self
    end in
  (self, sales_cycle_days self).

End OpportunityDates.

(** ** [models/invoice.py], continued *)

(** An invoice together with its [due_date] column. *)
Module DatedInvoice.

Record t := mk {
  invoice : Invoice.t;
  due_date : Z
}.

(** Lines 136-142. *)
Definition is_overdue (self : t) (utcnow : Z) : bool :=
  match Invoice.status (invoice self) with
  | Invoice.SENT | Invoice.VIEWED | Invoice.PARTIALLY_PAID =>
      utcnow >? due_date self
  | _ => false
  end.

(** [add_payment] assigns nothing to [due_date]. *)
Definition add_payment (self : t) (amount : Py.Decimal) : t :=
  mk (Invoice.add_payment (invoice self) amount) (due_date self).

End DatedInvoice.

(** ** [models/activity.py] *)

Module Task.

Inductive ActivityStatus :=
| PLANNED | IN_PROGRESS | COMPLETED | CANCELLED | OVERDUE.

Definition status_eqb (a b : ActivityStatus) : bool :=
  match a, b with
  | PLANNED, PLANNED | IN_PROGRESS, IN_PROGRESS | COMPLETED, COMPLETED
  | CANCELLED, CANCELLED | OVERDUE, OVERDUE => true
  | _, _ => false
  end.

Record t := mk {
  status : ActivityStatus;
  due_date : option Z;
  completed_at : option Invoice.DateValue;
  progress_percent : Z;
  estimated_hours : option Z
}.

(** Lines 239-245. *)
Definition is_overdue (self : t) (utcnow : Z) : bool :=
  match due_date self with
  | Some due =>
      if negb (status_eqb (status self) COMPLETED) then utcnow >? due
      else false
  | None => false
  end.

(** Lines 247-251. *)
Definition mark_completed (self : t) : t :=
  mk COMPLETED (due_date self) (Some Invoice.FuncNow) 100
     (estimated_hours self).

End Task.

(** ** [models/customer.py] and [models/contact.py]: names *)

Module CustomerName.

Inductive CustomerType := INDIVIDUAL | BUSINESS | ENTERPRISE.

Record t := mk {
  name : string;
  type : CustomerType;
  first_name : option string;
  last_name : option string
}.

Definition truthy_str (s : option string) : bool :=
  match s with
  | Some v => negb (String.eqb v EmptyString)
  | None => false
  end.

(** [customer.py] lines 131-136. *)
Definition full_name (self : t) : string :=
  match type self, first_name self, last_name self with
  | INDIVIDUAL, Some f, Some l =>
      if andb (truthy_str (Some f)) (truthy_str (Some l))
      then (f ++ " " ++ l)%string
      else name self
  | _, _, _ => name self
  end.

(** [customer.py] lines 138-141: [self.full_name or self.name]. *)
Definition display_name (self : t) : string :=
  if truthy_str (Some (full_name self)) then full_name self else name self.

End CustomerName.

Module Contact.

Record t := mk {
  first_name : string;
  last_name : string;
  job_title : option string;
  department : option string
}.

(** Lines 91-94. *)
Definition full_name (self : t) : string :=
  (first_name self ++ " " ++ last_name self)%string.

(** Lines 96-102. *)
Definition display_name (self : t) : string :=
  let name := full_name self in
  match job_title self with
  | Some j =>
      if CustomerName.truthy_str (Some j)
      then (name ++ " (" ++ j ++ ")")%string
      else name
  | None => name
  end.

End Contact.

(** * Scenarios and stated formulas

    Concrete records used by the examples below, and the closed forms the
    properties are stated with. *)

(** The example lead of the scoring scenario: an enterprise CTO contacted
    three days before [utcnow]. *)
Definition enterprise_cto (utcnow : Z) : Lead.t :=
  {| Lead.company_size := Some "Enterprise"%string;
     Lead.annual_revenue := Some (Py.of_int 2000000);
     Lead.job_title := Some "CTO"%string;
     Lead.website_visits := 12;
     Lead.email_opens := 6;
     Lead.email_clicks := 4;
     Lead.total_interactions := 11;
     Lead.last_contact_date := Some (utcnow - 3 * Py.microseconds_per_day);
     Lead.quality := None;
     Lead.lead_score := Some 0;
     Lead.demographic_score := Some 0;
     Lead.behavioral_score := Some 0;
     Lead.engagement_score := Some 0 |}.

(** A customer with full engagement and satisfaction, contacted five days
    before [utcnow], with 50,000 of revenue. *)
Definition healthy_customer (utcnow : Z) : Customer.t :=
  {| Customer.lifetime_value := None;
     Customer.total_revenue := Some (Py.of_int 50000);
     Customer.total_orders := 0;
     Customer.last_contact_date :=
       Some (utcnow - 5 * Py.microseconds_per_day);
     Customer.last_purchase_date := None;
     Customer.engagement_score := Some 100;
     Customer.satisfaction_score := Some (Py.of_int 10);
     Customer.churn_risk_score := None |}.


(** The four contributions to the health score. *)
Definition engagement_contribution (c : Customer.t) : Py.Decimal :=
  match Customer.engagement_score c with
  | Some e => Py.min (Py.of_int e * Py.decimal 4 10)%Qc (Py.of_int 40)
  | None => Py.of_int 0
  end.

Definition satisfaction_contribution (c : Customer.t) : Py.Decimal :=
  match Customer.satisfaction_score c with
  | Some s => (s * Py.of_int 2)%Qc
  | None => Py.of_int 0
  end.

Definition recency_contribution (c : Customer.t) (utcnow : Z) : Py.Decimal :=
  match Customer.last_contact_date c with
  | Some d =>
      if Py.days_between utcnow d <=? 30 then Py.of_int 20
      else if Py.days_between utcnow d <=? 90 then Py.of_int 10
      else Py.of_int 0
  | None => Py.of_int 0
  end.

Definition revenue_contribution (c : Customer.t) : Py.Decimal :=
  match Customer.total_revenue c with
  | Some r =>
      if Py.ltb (Py.of_int 0) r
      then Py.min (r / Py.of_int 1000)%Qc (Py.of_int 20)
      else Py.of_int 0
  | None => Py.of_int 0
  end.

(** The Python type of a number. *)
Definition is_float (n : PyNum.t) : bool :=
  match n with PyNum.Float _ => true | _ => false end.

Definition is_dec (n : PyNum.t) : bool :=
  match n with PyNum.Dec _ => true | _ => false end.

(** The Python types the health score meets.  The engagement term is a
    [float] when engagement_score is not zero and its product with 0.4 does
    not exceed 40 (beyond that [min] returns the [int] 40); the satisfaction
    term is a [Decimal] when satisfaction_score is not zero; the revenue
    term is a [float] when total_revenue is positive and a thousandth of it
    does not exceed 20 (beyond that [min] returns the [int] 20). *)
Definition engagement_is_float (c : Customer.t) : bool :=
  match Customer.engagement_score c with
  | Some e =>
      andb (Py.truthy_int (Some e))
           (negb (Py.ltb (Py.of_int 40) (Py.of_int e * Py.decimal 4 10)%Qc))
  | None => false
  end.

Definition satisfaction_is_decimal (c : Customer.t) : bool :=
  Py.truthy (Customer.satisfaction_score c).

Definition revenue_is_float (c : Customer.t) : bool :=
  match Customer.total_revenue c with
  | Some r =>
      andb (andb (Py.truthy (Some r)) (Py.ltb (Py.of_int 0) r))
           (negb (Py.ltb (Py.of_int 20) (r / Py.of_int 1000)%Qc))
  | None => false
  end.

(** A [Decimal] satisfaction term meets a [float]: the engagement term
    before it or the revenue term after it. *)
Definition type_clash (c : Customer.t) : bool :=
  andb (satisfaction_is_decimal c)
       (orb (engagement_is_float c) (revenue_is_float c)).


(** [rate a b] is the funnel ratio [a / b * 100] as an exact number. *)
Definition rate (a b : Z) : Py.Decimal :=
  (Py.of_int a / Py.of_int b * Py.of_int 100)%Qc.

(** A campaign whose counters were reset after a delivery rate of 95 had
    been computed. *)
Definition stale_campaign : Campaign.t :=
  {| Campaign.actual_cost := None;
     Campaign.audience_size := None;
     Campaign.sent_count := 0;
     Campaign.delivered_count := 0;
     Campaign.opened_count := 0;
     Campaign.clicked_count := 0;
     Campaign.converted_count := 0;
     Campaign.unsubscribed_count := 0;
     Campaign.delivery_rate := Some (Py.of_int 95);
     Campaign.open_rate := None;
     Campaign.click_rate := None;
     Campaign.conversion_rate := None;
     Campaign.roi := None |}.

(** The campaign of the funnel scenario: 1000 sent, 950 delivered, none
    opened. *)
Definition unopened_campaign : Campaign.t :=
  {| Campaign.actual_cost := None;
     Campaign.audience_size := None;
     Campaign.sent_count := 1000;
     Campaign.delivered_count := 950;
     Campaign.opened_count := 0;
     Campaign.clicked_count := 0;
     Campaign.converted_count := 0;
     Campaign.unsubscribed_count := 0;
     Campaign.delivery_rate := None;
     Campaign.open_rate := None;
     Campaign.click_rate := None;
     Campaign.conversion_rate := None;
     Campaign.roi := None |}.

(** The item total as the specification words it: the discount is
    [subtotal * discount_percent / 100] when a percentage is present and 0
    otherwise, the tax is [after_discount * tax_rate / 100] when a rate is
    present and 0 otherwise; the stored amounts play no part. *)
Definition stated_item_total (i : InvoiceItem.t) : Py.Decimal :=
  let subtotal := (InvoiceItem.quantity i * InvoiceItem.unit_price i)%Qc in
  let discount :=
    match InvoiceItem.discount_percent i with
    | Some p => (subtotal * (p / Py.of_int 100))%Qc
    | None => Py.of_int 0
    end in
  let after_discount := (subtotal - discount)%Qc in
  let tax :=
    match InvoiceItem.tax_rate i with
    | Some r => (after_discount * (r / Py.of_int 100))%Qc
    | None => Py.of_int 0
    end in
  (after_discount + tax)%Qc.

(** An item priced at 100 with no discount percentage and a stored flat
    discount of 20. *)
Definition flat_discount_item : InvoiceItem.t :=
  {| InvoiceItem.quantity := Py.of_int 1;
     InvoiceItem.unit_price := Py.of_int 100;
     InvoiceItem.discount_percent := None;
     InvoiceItem.discount_amount := Some (Py.of_int 20);
     InvoiceItem.total_amount := Py.of_int 0;
     InvoiceItem.tax_rate := None;
     InvoiceItem.tax_amount := None;
     InvoiceItem.sort_order := 0 |}.

(** The item of the invoice scenario before its total is computed: two
    units at 100, 10 percent discount, 5 percent tax. *)
Definition scenario_item : InvoiceItem.t :=
  {| InvoiceItem.quantity := Py.of_int 2;
     InvoiceItem.unit_price := Py.of_int 100;
     InvoiceItem.discount_percent := Some (Py.of_int 10);
     InvoiceItem.discount_amount := Some (Py.of_int 0);
     InvoiceItem.total_amount := Py.of_int 0;
     InvoiceItem.tax_rate := Some (Py.of_int 5);
     InvoiceItem.tax_amount := Some (Py.of_int 0);
     InvoiceItem.sort_order := 0 |}.

(** The invoice of the scenario: that item with its total computed, an
    invoice tax rate of 8 percent, no discount, nothing paid. *)
Definition scenario_invoice : Invoice.t :=
  {| Invoice.status := Invoice.DRAFT;
     Invoice.subtotal := Py.of_int 0;
     Invoice.tax_amount := Py.of_int 0;
     Invoice.discount_amount := Py.of_int 0;
     Invoice.total_amount := Py.of_int 0;
     Invoice.paid_amount := Py.of_int 0;
     Invoice.due_amount := Py.of_int 0;
     Invoice.tax_rate := Py.of_int 8;
     Invoice.paid_date := None;
     Invoice.items := [fst (InvoiceItem.calculate_total scenario_item)] |}.

(** A sent invoice of 100 on which 30 has been paid. *)
Definition part_paid_invoice : Invoice.t :=
  {| Invoice.status := Invoice.PARTIALLY_PAID;
     Invoice.subtotal := Py.of_int 100;
     Invoice.tax_amount := Py.of_int 0;
     Invoice.discount_amount := Py.of_int 0;
     Invoice.total_amount := Py.of_int 100;
     Invoice.paid_amount := Py.of_int 30;
     Invoice.due_amount := Py.of_int 70;
     Invoice.tax_rate := Py.of_int 0;
     Invoice.paid_date := None;
     Invoice.items := [] |}.

(** The discount and the tax an item total ends up with: computed from the
    percentage or rate when that is present and not zero, and otherwise the
    amount already stored on the item (0 if none is stored). *)
Definition applied_discount (i : InvoiceItem.t) : Py.Decimal :=
  match InvoiceItem.discount_percent i with
  | Some p =>
      if Py.truthy (Some p)
      then (InvoiceItem.quantity i * InvoiceItem.unit_price i
            * (p / Py.of_int 100))%Qc
      else Py.or0 (InvoiceItem.discount_amount i)
  | None => Py.or0 (InvoiceItem.discount_amount i)
  end.

Definition applied_tax (i : InvoiceItem.t) : Py.Decimal :=
  let after_discount :=
    (InvoiceItem.quantity i * InvoiceItem.unit_price i
     - applied_discount i)%Qc in
  match InvoiceItem.tax_rate i with
  | Some r =>
      if Py.truthy (Some r)
      then (after_discount * (r / Py.of_int 100))%Qc
      else Py.or0 (InvoiceItem.tax_amount i)
  | None => Py.or0 (InvoiceItem.tax_amount i)
  end.

(** A sent invoice of 100 on which nothing has been paid. *)
Definition unpaid_invoice : Invoice.t :=
  {| Invoice.status := Invoice.SENT;
     Invoice.subtotal := Py.of_int 100;
     Invoice.tax_amount := Py.of_int 0;
     Invoice.discount_amount := Py.of_int 0;
     Invoice.total_amount := Py.of_int 100;
     Invoice.paid_amount := Py.of_int 0;
     Invoice.due_amount := Py.of_int 100;
     Invoice.tax_rate := Py.of_int 0;
     Invoice.paid_date := None;
     Invoice.items := [] |}.

(** A sequence of [add_tag] / [remove_tag] calls on one object; the run
    stops at the first call that raises. *)
Inductive tag_call :=
| AddTag (tag : string)
| RemoveTag (tag : string).

Definition call_tag (self : Tagged.t) (c : tag_call) : option Tagged.t :=
  match c with
  | AddTag tag => Tagged.add_tag self tag
  | RemoveTag tag => Tagged.remove_tag self tag
  end.

Fixpoint call_tags (calls : list tag_call) (self : Tagged.t)
  : option Tagged.t :=
  match calls with
  | [] => Some self
  | c :: rest => self' <- call_tag self c ;; call_tags rest self'
  end.

(** The column default: an empty JSON array. *)
Definition untagged : Tagged.t := Tagged.mk (Some []).

(** The unpaid invoice of 100, due at [due]. *)
Definition unpaid_dated_invoice (due : Z) : DatedInvoice.t :=
  DatedInvoice.mk unpaid_invoice due.

(** A tier for 10 to 100 units at 5 each with a setup fee of 20. *)
Definition bulk_tier : PricingTier.t :=
  {| PricingTier.min_quantity := 10;
     PricingTier.max_quantity := Some 100;
     PricingTier.unit_price := Py.of_int 5;
     PricingTier.setup_fee := Some (Py.of_int 20);
     PricingTier.recurring_fee := None |}.

(** The points each counter of a lead earns on its own. *)
Definition visit_points (visits : Z) : Z :=
  if visits >? 10 then 15 else if visits >? 5 then 10
  else if visits >? 0 then 5 else 0.

Definition open_points (opens : Z) : Z :=
  if opens >? 5 then 10 else if opens >? 2 then 5 else 0.

Definition click_points (clicks : Z) : Z :=
  if clicks >? 3 then 15 else if clicks >? 0 then 10 else 0.

Definition interaction_points (interactions : Z) : Z :=
  if interactions >? 10 then 20 else if interactions >? 5 then 15
  else if interactions >? 0 then 10 else 0.

Definition recency_points (days : Z) : Z :=
  if days <=? 7 then 10 else if days <=? 30 then 5 else 0.

(** A lead with other interaction counters and everything else as in
    [l]. *)
Definition with_activity (l : Lead.t) (visits opens clicks interactions : Z)
  : Lead.t :=
  Lead.mk (Lead.company_size l) (Lead.annual_revenue l) (Lead.job_title l)
          visits opens clicks interactions (Lead.last_contact_date l)
          (Lead.quality l) (Lead.lead_score l) (Lead.demographic_score l)
          (Lead.behavioral_score l) (Lead.engagement_score l).

(** Three units at 200 with 25 percent off. *)
Definition discounted_line : OpportunityProduct.t :=
  {| OpportunityProduct.quantity := 3;
     OpportunityProduct.unit_price := Py.of_int 200;
     OpportunityProduct.discount_percent := Some (Py.of_int 25);
     OpportunityProduct.discount_amount := None;
     OpportunityProduct.total_amount := Py.of_int 0 |}.

(** * Properties *)

(** ** Facts about the Python fragment *)

Section PyFacts.

Local Open Scope Qc_scope.

Lemma ltb_lt (x y : Py.Decimal) : Py.ltb x y = true <-> x < y.
Proof.
  unfold Py.ltb. rewrite Qclt_alt.
  destruct (x ?= y); split; congruence.
Qed.

Lemma ltb_ge (x y : Py.Decimal) : Py.ltb x y = false <-> y <= x.
Proof.
  split; intro H.
  - apply Qcnot_lt_le. intro L. apply ltb_lt in L. congruence.
  - destruct (Py.ltb x y) eqn:E; [| reflexivity].
    apply ltb_lt in E. exfalso. exact (Qcle_not_lt _ _ H E).
Qed.

Lemma leb_le (x y : Py.Decimal) : Py.leb x y = true <-> x <= y.
Proof.
  unfold Py.leb. rewrite Qcle_alt.
  destruct (x ?= y); split; congruence.
Qed.

Lemma leb_gt (x y : Py.Decimal) : Py.leb x y = false <-> y < x.
Proof.
  split; intro H.
  - apply Qcnot_le_lt. intro L. apply leb_le in L. congruence.
  - destruct (Py.leb x y) eqn:E; [| reflexivity].
    apply leb_le in E. exfalso. exact (Qclt_not_le _ _ H E).
Qed.

Lemma eqb_eq (x y : Py.Decimal) : Py.eqb x y = true <-> x = y.
Proof.
  unfold Py.eqb. rewrite Qeq_bool_iff. split.
  - apply Qc_is_canon.
  - intros ->. reflexivity.
Qed.

Lemma min_le_l (a b : Py.Decimal) : Py.min a b <= a.
Proof.
  unfold Py.min. destruct (Py.ltb b a) eqn:E.
  - apply Qclt_le_weak, ltb_lt, E.
  - apply Qcle_refl.
Qed.

Lemma min_le_r (a b : Py.Decimal) : Py.min a b <= b.
Proof.
  unfold Py.min. destruct (Py.ltb b a) eqn:E.
  - apply Qcle_refl.
  - apply ltb_ge, E.
Qed.

Lemma min_glb (a b c : Py.Decimal) : c <= a -> c <= b -> c <= Py.min a b.
Proof. unfold Py.min. destruct (Py.ltb b a); auto. Qed.

Lemma of_int_le (a b : Z) : (a <= b)%Z -> Py.of_int a <= Py.of_int b.
Proof.
  intro H. unfold Qcle, Py.of_int, Q2Qc. cbn [this].
  rewrite !Qred_correct. rewrite <- Zle_Qle. exact H.
Qed.

Lemma plus_nonneg (a b : Py.Decimal) :
  Py.of_int 0 <= a -> Py.of_int 0 <= b -> Py.of_int 0 <= a + b.
Proof.
  intros Ha Hb.
  replace (Py.of_int 0) with (Py.of_int 0 + Py.of_int 0) at 1
    by apply Qcplus_0_l.
  apply Qcplus_le_compat; assumption.
Qed.

(** [sum] is the usual sum of the list. *)
Lemma fold_plus_acc (xs : list Py.Decimal) (a : Py.Decimal) :
  fold_left Qcplus xs a = a + fold_left Qcplus xs (Py.of_int 0).
Proof.
  revert a. induction xs as [| x xs IH]; intro a; cbn [fold_left].
  - symmetry. apply Qcplus_0_r.
  - rewrite IH. rewrite (IH (Py.of_int 0 + x)).
    rewrite Qcplus_0_l. symmetry. apply Qcplus_assoc.
Qed.

Lemma sum_nil : Py.sum [] = Py.of_int 0.
Proof. reflexivity. Qed.

Lemma sum_cons (x : Py.Decimal) (xs : list Py.Decimal) :
  Py.sum (x :: xs) = x + Py.sum xs.
Proof.
  unfold Py.sum. cbn [fold_left]. rewrite fold_plus_acc.
  rewrite Qcplus_0_l. reflexivity.
Qed.

End PyFacts.

(** ** Lead scoring *)

Lemma demographic_points_range (l : Lead.t) :
  0 <= Lead.demographic_points l <= 30.
Proof.
  unfold Lead.demographic_points.
  destruct (Py.str_in _ ["Large"; "Enterprise"]%string);
    [| destruct (Py.str_in _ ["Medium"]%string)];
    (destruct (Lead.revenue_above l 1000000);
       [| destruct (Lead.revenue_above l 100000)]);
    destruct (Lead.senior_title l); lia.
Qed.

Lemma behavioral_points_range (l : Lead.t) :
  0 <= Lead.behavioral_points l <= 40.
Proof.
  unfold Lead.behavioral_points.
  repeat match goal with
         | |- context [if ?c then _ else _] => destruct c
         end; lia.
Qed.

Lemma engagement_points_range (l : Lead.t) (utcnow : Z) :
  0 <= Lead.engagement_points l utcnow <= 30.
Proof.
  unfold Lead.engagement_points.
  destruct (Lead.last_contact_date l);
    repeat match goal with
           | |- context [if ?c then _ else _] => destruct c
           end; lia.
Qed.

(** C1.  After [calculate_lead_score] the three component scores are set and
    capped (demographic at 30, behavioral at 40, engagement at 30), the lead
    score is set to exactly their sum, it is at most 100, and it is the value
    the method returns. *)
Theorem calculate_lead_score_bounds (l : Lead.t) (utcnow : Z) :
  exists d b e s : Z,
    Lead.demographic_score (fst (Lead.calculate_lead_score l utcnow)) = Some d
    /\ Lead.behavioral_score (fst (Lead.calculate_lead_score l utcnow)) = Some b
    /\ Lead.engagement_score (fst (Lead.calculate_lead_score l utcnow)) = Some e
    /\ Lead.lead_score (fst (Lead.calculate_lead_score l utcnow)) = Some s
    /\ snd (Lead.calculate_lead_score l utcnow) = s
    /\ d = Z.min (Lead.demographic_points l) 30
    /\ b = Z.min (Lead.behavioral_points l) 40
    /\ e = Z.min (Lead.engagement_points l utcnow) 30
    /\ d <= 30 /\ b <= 40 /\ e <= 30
    /\ s = d + b + e
    /\ s <= 100.
Proof.
  unfold Lead.calculate_lead_score. cbn [fst snd Lead.demographic_score
    Lead.behavioral_score Lead.engagement_score Lead.lead_score].
  do 4 eexists. repeat split; lia.
Qed.

Lemma quality_for_hot (s : Z) : 80 <= s -> Lead.quality_for s = Lead.HOT.
Proof.
  intro H. unfold Lead.quality_for.
  destruct (s >=? 80) eqn:E; [reflexivity | lia].
Qed.

Lemma quality_for_warm (s : Z) :
  50 <= s <= 79 -> Lead.quality_for s = Lead.WARM.
Proof.
  intro H. unfold Lead.quality_for.
  destruct (s >=? 80) eqn:E; [lia |].
  destruct (s >=? 50) eqn:F; [reflexivity | lia].
Qed.

Lemma quality_for_cold (s : Z) : s <= 49 -> Lead.quality_for s = Lead.COLD.
Proof.
  intro H. unfold Lead.quality_for.
  destruct (s >=? 80) eqn:E; [lia |].
  destruct (s >=? 50) eqn:F; [lia | reflexivity].
Qed.

Lemma quality_for_monotone (s1 s2 : Z) :
  s1 <= s2 ->
  Lead.tier (Lead.quality_for s1) <= Lead.tier (Lead.quality_for s2).
Proof.
  intro H. unfold Lead.quality_for.
  destruct (s1 >=? 80) eqn:E1; destruct (s2 >=? 80) eqn:E2;
    destruct (s1 >=? 50) eqn:F1; destruct (s2 >=? 50) eqn:F2;
    cbn [Lead.tier]; lia.
Qed.

Example enterprise_cto_is_hot :
  let l := fst (Lead.calculate_lead_score (enterprise_cto 1700000000000000)
                                          1700000000000000) in
  Lead.demographic_score l = Some 30 /\ Lead.behavioral_score l = Some 40 /\
  Lead.engagement_score l = Some 30 /\ Lead.lead_score l = Some 100 /\
  Lead.quality l = Some Lead.HOT.
Proof. vm_compute. repeat split. Qed.

(** C6.  The quality written by [calculate_lead_score] is [quality_for]
    applied to the lead score written by the same call, so two leads with the
    same score get the same quality and a lead with a score at least as high
    gets a tier at least as high (cold < warm < hot).  The tiers are: 80 and
    above hot, 50 to 79 warm, 49 and below cold; in particular 79 is warm, 80
    hot, 49 cold and 50 warm. *)
Theorem lead_quality_tiers :
  (forall (l : Lead.t) (utcnow : Z),
      exists s : Z,
        Lead.lead_score (fst (Lead.calculate_lead_score l utcnow)) = Some s /\
        Lead.quality (fst (Lead.calculate_lead_score l utcnow))
        = Some (Lead.quality_for s)) /\
  (forall (l1 l2 : Lead.t) (t1 t2 : Z),
      Lead.lead_score (fst (Lead.calculate_lead_score l1 t1))
      = Lead.lead_score (fst (Lead.calculate_lead_score l2 t2)) ->
      Lead.quality (fst (Lead.calculate_lead_score l1 t1))
      = Lead.quality (fst (Lead.calculate_lead_score l2 t2))) /\
  (forall (l1 l2 : Lead.t) (t1 t2 : Z),
      snd (Lead.calculate_lead_score l1 t1)
      <= snd (Lead.calculate_lead_score l2 t2) ->
      exists q1 q2 : Lead.LeadQuality,
        Lead.quality (fst (Lead.calculate_lead_score l1 t1)) = Some q1 /\
        Lead.quality (fst (Lead.calculate_lead_score l2 t2)) = Some q2 /\
        Lead.tier q1 <= Lead.tier q2) /\
  (forall s1 s2 : Z,
      s1 <= s2 ->
      Lead.tier (Lead.quality_for s1) <= Lead.tier (Lead.quality_for s2)) /\
  (forall s : Z, 80 <= s -> Lead.quality_for s = Lead.HOT) /\
  (forall s : Z, 50 <= s <= 79 -> Lead.quality_for s = Lead.WARM) /\
  (forall s : Z, s <= 49 -> Lead.quality_for s = Lead.COLD) /\
  Lead.quality_for 79 = Lead.WARM /\ Lead.quality_for 80 = Lead.HOT /\
  Lead.quality_for 49 = Lead.COLD /\ Lead.quality_for 50 = Lead.WARM.
Proof.
  split; [| split; [| split; [| split; [| split; [| split; [| split]]]]]].
  - intros l utcnow. eexists. split; reflexivity.
  - intros l1 l2 t1 t2 H. unfold Lead.calculate_lead_score in *.
    cbn [fst Lead.lead_score Lead.quality] in *.
    injection H as H. rewrite H. reflexivity.
  - intros l1 l2 t1 t2 H. do 2 eexists.
    split; [reflexivity | split; [reflexivity |]].
    apply quality_for_monotone. exact H.
  - exact quality_for_monotone.
  - exact quality_for_hot.
  - exact quality_for_warm.
  - exact quality_for_cold.
  - repeat split.
Qed.

(** ** Customer health *)

Section HealthFacts.

Local Open Scope Qc_scope.

Lemma mult_nonneg (a b : Py.Decimal) :
  Py.of_int 0 <= a -> Py.of_int 0 <= b -> Py.of_int 0 <= a * b.
Proof.
  intros Ha Hb.
  replace (Py.of_int 0) with (Py.of_int 0 * b) at 1 by apply Qcmult_0_l.
  apply Qcmult_le_compat_r; assumption.
Qed.

Lemma truthy_int_false (e : Z) : Py.truthy_int (Some e) = false -> e = 0%Z.
Proof.
  cbn [Py.truthy_int]. intro H. apply Bool.negb_false_iff in H. lia.
Qed.

Lemma truthy_false (x : Py.Decimal) :
  Py.truthy (Some x) = false -> x = Py.of_int 0.
Proof.
  cbn [Py.truthy]. intro H. apply Bool.negb_false_iff in H.
  apply eqb_eq. exact H.
Qed.

Lemma truthy_true (x : Py.Decimal) :
  Py.truthy (Some x) = true -> x <> Py.of_int 0.
Proof.
  cbn [Py.truthy]. intros H E. apply Bool.negb_true_iff in H.
  apply eqb_eq in E. congruence.
Qed.

Lemma of_int_add (x y : Z) :
  Py.of_int (x + y) = Py.of_int x + Py.of_int y.
Proof.
  apply Qc_is_canon. unfold Py.of_int, Qcplus, Q2Qc. cbn [this].
  rewrite !Qred_correct. rewrite inject_Z_plus. apply Qeq_refl.
Qed.

Lemma add_value (a b v : PyNum.t) :
  PyNum.add a b = Some v -> PyNum.value v = PyNum.value a + PyNum.value b.
Proof.
  destruct a, b; cbn [PyNum.add]; intro H;
    try discriminate H; injection H as <-; cbn [PyNum.value];
    try reflexivity.
  apply of_int_add.
Qed.

Lemma min_value (a b : PyNum.t) :
  PyNum.value (PyNum.min a b) = Py.min (PyNum.value a) (PyNum.value b).
Proof.
  unfold PyNum.min, PyNum.lt, Py.min.
  destruct (Py.ltb (PyNum.value b) (PyNum.value a)); reflexivity.
Qed.

(** What each step adds to the number. *)
Lemma engagement_step (c : Customer.t) (s s' : PyNum.t) :
  Customer.add_engagement c s = Some s' ->
  PyNum.value s' = PyNum.value s + engagement_contribution c.
Proof.
  unfold Customer.add_engagement, engagement_contribution.
  destruct (Customer.engagement_score c) as [e |].
  - destruct (Py.truthy_int (Some e)) eqn:E.
    + cbn [PyNum.mul bind]. intro H. apply add_value in H.
      rewrite H, min_value. reflexivity.
    + intro H. injection H as <-. apply truthy_int_false in E. subst e.
      symmetry. apply Qcplus_0_r.
  - intro H. injection H as <-. symmetry. apply Qcplus_0_r.
Qed.

Lemma satisfaction_step (c : Customer.t) (s s' : PyNum.t) :
  Customer.add_satisfaction c s = Some s' ->
  PyNum.value s' = PyNum.value s + satisfaction_contribution c.
Proof.
  unfold Customer.add_satisfaction, satisfaction_contribution.
  destruct (Customer.satisfaction_score c) as [x |].
  - destruct (Py.truthy (Some x)) eqn:E.
    + cbn [PyNum.mul bind]. intro H. apply add_value in H.
      rewrite H. reflexivity.
    + intro H. injection H as <-. apply truthy_false in E. subst x.
      symmetry. apply Qcplus_0_r.
  - intro H. injection H as <-. symmetry. apply Qcplus_0_r.
Qed.

Lemma recency_step (c : Customer.t) (utcnow : Z) (s s' : PyNum.t) :
  Customer.add_recency c utcnow s = Some s' ->
  PyNum.value s' = PyNum.value s + recency_contribution c utcnow.
Proof.
  unfold Customer.add_recency, recency_contribution.
  destruct (Customer.last_contact_date c) as [d |]; cbv zeta.
  - destruct (_ <=? 30)%Z; [intro H; apply add_value in H; exact H |].
    destruct (_ <=? 90)%Z; [intro H; apply add_value in H; exact H |].
    intro H. injection H as <-. symmetry. apply Qcplus_0_r.
  - intro H. injection H as <-. symmetry. apply Qcplus_0_r.
Qed.

Lemma thousandth (r : Py.Decimal) :
  PyNum.truediv (PyNum.to_float r) (PyNum.Int 1000)
  = Some (PyNum.Float (r / Py.of_int 1000)).
Proof. reflexivity. Qed.

Lemma revenue_step (c : Customer.t) (s s' : PyNum.t) :
  Customer.add_revenue c s = Some s' ->
  PyNum.value s' = PyNum.value s + revenue_contribution c.
Proof.
  unfold Customer.add_revenue, revenue_contribution.
  destruct (Customer.total_revenue c) as [r |].
  - destruct (Py.ltb (Py.of_int 0) r) eqn:L.
    + destruct (Py.truthy (Some r)) eqn:E.
      * cbn [andb]. rewrite thousandth. cbn [bind]. intro H.
        apply add_value in H. rewrite H, min_value. reflexivity.
      * apply truthy_false in E. subst r. discriminate L.
    + rewrite Bool.andb_false_r. intro H. injection H as <-.
      symmetry. apply Qcplus_0_r.
  - intro H. injection H as <-. symmetry. apply Qcplus_0_r.
Qed.

(** The number [calculate_health_score] returns, when it returns. *)
Lemma calculate_health_score_value
  (c : Customer.t) (utcnow : Z) (v : PyNum.t) :
  Customer.calculate_health_score c utcnow = Some v ->
  PyNum.value v
  = Py.min (engagement_contribution c + satisfaction_contribution c
            + recency_contribution c utcnow + revenue_contribution c)
           (Py.of_int 100).
Proof.
  unfold Customer.calculate_health_score. cbv zeta.
  destruct (Customer.add_engagement c (PyNum.Int 0)) as [s1 |] eqn:E1;
    [| discriminate]. cbn [bind].
  destruct (Customer.add_satisfaction c s1) as [s2 |] eqn:E2;
    [| discriminate]. cbn [bind].
  destruct (Customer.add_recency c utcnow s2) as [s3 |] eqn:E3;
    [| discriminate]. cbn [bind].
  destruct (Customer.add_revenue c s3) as [s4 |] eqn:E4;
    [| discriminate]. cbn [bind].
  intro H. injection H as <-. rewrite min_value.
  rewrite (revenue_step c s3 s4 E4), (recency_step c utcnow s2 s3 E3),
    (satisfaction_step c s1 s2 E2), (engagement_step c _ s1 E1).
  cbn [PyNum.value]. rewrite Qcplus_0_l. reflexivity.
Qed.

(** The type of the running score after each step. *)
Lemma engagement_type (c : Customer.t) :
  exists s1 : PyNum.t,
    Customer.add_engagement c (PyNum.Int 0) = Some s1 /\
    is_dec s1 = false /\ is_float s1 = engagement_is_float c.
Proof.
  unfold Customer.add_engagement, engagement_is_float.
  destruct (Customer.engagement_score c) as [e |];
    [| eexists; repeat split].
  destruct (Py.truthy_int (Some e)); [| eexists; repeat split].
  cbn [PyNum.mul bind andb]. unfold PyNum.min, PyNum.lt. cbn [PyNum.value].
  destruct (Py.ltb (Py.of_int 40) (Py.of_int e * Py.decimal 4 10));
    cbn [PyNum.add negb]; eexists; repeat split.
Qed.

Lemma satisfaction_type (c : Customer.t) (s : PyNum.t) :
  is_dec s = false ->
  if satisfaction_is_decimal c
  then if is_float s
       then Customer.add_satisfaction c s = None
       else exists s' : PyNum.t,
           Customer.add_satisfaction c s = Some s' /\
           is_dec s' = true /\ is_float s' = false
  else Customer.add_satisfaction c s = Some s.
Proof.
  intro D. unfold Customer.add_satisfaction, satisfaction_is_decimal.
  destruct (Customer.satisfaction_score c) as [x |]; [| reflexivity].
  destruct (Py.truthy (Some x)); [| reflexivity].
  cbn [PyNum.mul bind].
  destruct s; cbn [is_float is_dec PyNum.add] in *;
    try discriminate D; try reflexivity; eexists; repeat split.
Qed.

Lemma recency_type (c : Customer.t) (utcnow : Z) (s : PyNum.t) :
  exists s' : PyNum.t,
    Customer.add_recency c utcnow s = Some s' /\
    is_dec s' = is_dec s /\ is_float s' = is_float s.
Proof.
  unfold Customer.add_recency.
  destruct (Customer.last_contact_date c) as [d |]; cbv zeta;
    [| eexists; repeat split].
  destruct (_ <=? 30)%Z;
    [destruct s; cbn [PyNum.add]; eexists; repeat split |].
  destruct (_ <=? 90)%Z;
    [destruct s; cbn [PyNum.add]; eexists; repeat split |].
  eexists; repeat split.
Qed.

Lemma revenue_type (c : Customer.t) (s : PyNum.t) :
  if andb (revenue_is_float c) (is_dec s)
  then Customer.add_revenue c s = None
  else exists s' : PyNum.t, Customer.add_revenue c s = Some s'.
Proof.
  unfold Customer.add_revenue, revenue_is_float.
  destruct (Customer.total_revenue c) as [r |];
    [| cbn [andb]; eexists; reflexivity].
  destruct (andb (Py.truthy (Some r)) (Py.ltb (Py.of_int 0) r));
    [| cbn [andb]; eexists; reflexivity].
  rewrite thousandth. cbn [bind andb].
  unfold PyNum.min, PyNum.lt. cbn [PyNum.value].
  destruct (Py.ltb (Py.of_int 20) (r / Py.of_int 1000));
    destruct s; cbn [negb andb is_dec PyNum.add];
    try reflexivity; eexists; reflexivity.
Qed.

(** [calculate_health_score] raises exactly on a type clash. *)
Lemma calculate_health_score_outcome (c : Customer.t) (utcnow : Z) :
  if type_clash c
  then Customer.calculate_health_score c utcnow = None
  else exists v : PyNum.t,
      Customer.calculate_health_score c utcnow = Some v.
Proof.
  unfold Customer.calculate_health_score, type_clash. cbv zeta.
  destruct (engagement_type c) as (s1 & E1 & D1 & F1). rewrite E1.
  cbn [bind]. rewrite <- F1.
  pose proof (satisfaction_type c s1 D1) as S.
  destruct (satisfaction_is_decimal c); cbn [andb].
  - destruct (is_float s1); cbn [orb].
    + rewrite S. reflexivity.
    + destruct S as (s2 & E2 & D2 & F2). rewrite E2. cbn [bind].
      destruct (recency_type c utcnow s2) as (s3 & E3 & D3 & F3).
      rewrite E3. cbn [bind].
      pose proof (revenue_type c s3) as R. rewrite D3, D2 in R.
      rewrite Bool.andb_true_r in R.
      destruct (revenue_is_float c).
      * rewrite R. reflexivity.
      * destruct R as (s4 & E4). rewrite E4. cbn [bind].
        eexists. reflexivity.
  - rewrite S. cbn [bind].
    destruct (recency_type c utcnow s1) as (s3 & E3 & D3 & F3).
    rewrite E3. cbn [bind].
    pose proof (revenue_type c s3) as R. rewrite D3, D1 in R.
    rewrite Bool.andb_false_r in R.
    destruct R as (s4 & E4). rewrite E4. cbn [bind].
    eexists. reflexivity.
Qed.






End HealthFacts.


(** The customer of the health scenario has a non-zero satisfaction score
    and an engagement term of 40.0, a [float]: on a [Decimal]
    satisfaction_score the second addition raises. *)
Example health_scenario_type_clash (utcnow : Z) :
  Customer.calculate_health_score (healthy_customer utcnow) utcnow = None.
Proof.
  exact (calculate_health_score_outcome (healthy_customer utcnow) utcnow).
Qed.


(** ** Campaign metrics *)

Lemma percentage_pos (a b : Z) : 0 < b -> percentage a b = Some (rate a b).
Proof.
  intro H. unfold percentage, Py.truediv, rate.
  destruct (Z.eqb_spec b 0) as [E | _]; [lia | reflexivity].
Qed.

Ltac campaign_step z :=
  let G := fresh "G" in
  destruct (Z.gtb_spec z 0) as [G | G];
  [ rewrite (percentage_pos _ z G) | ];
  cbn [bind Campaign.sent_count Campaign.delivered_count
       Campaign.opened_count Campaign.clicked_count
       Campaign.converted_count Campaign.set_delivery_rate
       Campaign.set_open_rate Campaign.set_click_rate
       Campaign.set_conversion_rate].

(** What [calculate_metrics] computes, field by field. *)
Lemma calculate_metrics_eq (c : Campaign.t) :
  Campaign.calculate_metrics c
  = Some
      {| Campaign.actual_cost := Campaign.actual_cost c;
         Campaign.audience_size := Campaign.audience_size c;
         Campaign.sent_count := Campaign.sent_count c;
         Campaign.delivered_count := Campaign.delivered_count c;
         Campaign.opened_count := Campaign.opened_count c;
         Campaign.clicked_count := Campaign.clicked_count c;
         Campaign.converted_count := Campaign.converted_count c;
         Campaign.unsubscribed_count := Campaign.unsubscribed_count c;
         Campaign.delivery_rate :=
           if Campaign.sent_count c >? 0
           then Some (rate (Campaign.delivered_count c) (Campaign.sent_count c))
           else Campaign.delivery_rate c;
         Campaign.open_rate :=
           if Campaign.delivered_count c >? 0
           then Some (rate (Campaign.opened_count c)
                           (Campaign.delivered_count c))
           else Campaign.open_rate c;
         Campaign.click_rate :=
           if Campaign.opened_count c >? 0
           then Some (rate (Campaign.clicked_count c) (Campaign.opened_count c))
           else Campaign.click_rate c;
         Campaign.conversion_rate :=
           if Campaign.clicked_count c >? 0
           then Some (rate (Campaign.converted_count c)
                           (Campaign.clicked_count c))
           else Campaign.conversion_rate c;
         Campaign.roi := Campaign.roi c |}.
Proof.
  destruct c as [cost aud sent deliv opened clicked conv unsub dr opr cr cvr r].
  unfold Campaign.calculate_metrics.
  cbn [Campaign.sent_count Campaign.delivered_count Campaign.opened_count
       Campaign.clicked_count Campaign.converted_count].
  campaign_step sent; campaign_step deliv; campaign_step opened;
    campaign_step clicked;
    match goal with
    | |- (if ?b then _ else _) = _ => destruct b
    end; reflexivity.
Qed.

Ltac metric_step z :=
  let G := fresh "G" in
  destruct (Z.gtb_spec z 0) as [G | G];
  [ rewrite (percentage_pos _ z G) | ];
  cbn [bind CampaignMetric.sent_count CampaignMetric.delivered_count
       CampaignMetric.opened_count CampaignMetric.clicked_count
       CampaignMetric.converted_count CampaignMetric.set_delivery_rate
       CampaignMetric.set_open_rate CampaignMetric.set_click_rate
       CampaignMetric.set_conversion_rate].

(** What [calculate_rates] computes, field by field. *)
Lemma calculate_rates_eq (m : CampaignMetric.t) :
  CampaignMetric.calculate_rates m
  = Some
      {| CampaignMetric.metric_date := CampaignMetric.metric_date m;
         CampaignMetric.sent_count := CampaignMetric.sent_count m;
         CampaignMetric.delivered_count := CampaignMetric.delivered_count m;
         CampaignMetric.opened_count := CampaignMetric.opened_count m;
         CampaignMetric.clicked_count := CampaignMetric.clicked_count m;
         CampaignMetric.converted_count := CampaignMetric.converted_count m;
         CampaignMetric.unsubscribed_count :=
           CampaignMetric.unsubscribed_count m;
         CampaignMetric.bounced_count := CampaignMetric.bounced_count m;
         CampaignMetric.cost := CampaignMetric.cost m;
         CampaignMetric.delivery_rate :=
           if CampaignMetric.sent_count m >? 0
           then Some (rate (CampaignMetric.delivered_count m)
                           (CampaignMetric.sent_count m))
           else CampaignMetric.delivery_rate m;
         CampaignMetric.open_rate :=
           if CampaignMetric.delivered_count m >? 0
           then Some (rate (CampaignMetric.opened_count m)
                           (CampaignMetric.delivered_count m))
           else CampaignMetric.open_rate m;
         CampaignMetric.click_rate :=
           if CampaignMetric.opened_count m >? 0
           then Some (rate (CampaignMetric.clicked_count m)
                           (CampaignMetric.opened_count m))
           else CampaignMetric.click_rate m;
         CampaignMetric.conversion_rate :=
           if CampaignMetric.clicked_count m >? 0
           then Some (rate (CampaignMetric.converted_count m)
                           (CampaignMetric.clicked_count m))
           else CampaignMetric.conversion_rate m |}.
Proof.
  destruct m as [day sent deliv opened clicked conv unsub bounced cost
                 dr opr cr cvr].
  unfold CampaignMetric.calculate_rates.
  cbn [CampaignMetric.sent_count CampaignMetric.delivered_count
       CampaignMetric.opened_count CampaignMetric.clicked_count
       CampaignMetric.converted_count].
  metric_step sent; metric_step deliv; metric_step opened;
    metric_step clicked; reflexivity.
Qed.

(** C2, as stated, fails: a rate whose denominator is zero is left as it
    was, which is null only if it was null before.  On a campaign with
    [sent_count = 0] and a delivery rate of 95 left from an earlier
    computation, [calculate_metrics] keeps the 95. *)
Lemma stale_rate_counterexample :
  Campaign.sent_count stale_campaign = 0 /\
  option_map Campaign.delivery_rate (Campaign.calculate_metrics stale_campaign)
  = Some (Some (Py.of_int 95)) /\
  option_map Campaign.delivery_rate (Campaign.calculate_metrics stale_campaign)
  <> Some None.
Proof.
  rewrite calculate_metrics_eq. cbn. repeat split. discriminate.
Qed.

(** The funnel scenario: 1000 sent, 950 delivered, none opened gives a
    delivery rate of 95, an open rate of 0 and no click rate. *)
Example unopened_campaign_rates :
  exists c : Campaign.t,
    Campaign.calculate_metrics unopened_campaign = Some c /\
    Campaign.delivery_rate c = Some (Py.of_int 95) /\
    Campaign.open_rate c = Some (Py.of_int 0) /\
    Campaign.click_rate c = None /\
    Campaign.conversion_rate c = None.
Proof.
  eexists. split; [apply calculate_metrics_eq |].
  cbn [Campaign.delivery_rate Campaign.open_rate Campaign.click_rate
       Campaign.conversion_rate unopened_campaign Campaign.sent_count
       Campaign.delivered_count Campaign.opened_count Campaign.clicked_count
       Campaign.converted_count Z.gtb Z.compare].
  repeat split; f_equal; apply Qc_is_canon; reflexivity.
Qed.

(** C2, amended.  [calculate_metrics] on a campaign and [calculate_rates] on
    a per-day metric record always complete (no division by zero occurs),
    and afterwards each of delivery_rate, open_rate, click_rate and
    conversion_rate equals numerator / denominator * 100 when its denominator
    (sent_count, delivered_count, opened_count, clicked_count respectively)
    is positive, and otherwise is the value the field had before the call
    (null if it was null). *)
Theorem rates_guarded_by_denominator :
  (forall c : Campaign.t,
      exists c' : Campaign.t,
        Campaign.calculate_metrics c = Some c' /\
        Campaign.delivery_rate c'
        = (if Campaign.sent_count c >? 0
           then Some (rate (Campaign.delivered_count c) (Campaign.sent_count c))
           else Campaign.delivery_rate c) /\
        Campaign.open_rate c'
        = (if Campaign.delivered_count c >? 0
           then Some (rate (Campaign.opened_count c)
                           (Campaign.delivered_count c))
           else Campaign.open_rate c) /\
        Campaign.click_rate c'
        = (if Campaign.opened_count c >? 0
           then Some (rate (Campaign.clicked_count c) (Campaign.opened_count c))
           else Campaign.click_rate c) /\
        Campaign.conversion_rate c'
        = (if Campaign.clicked_count c >? 0
           then Some (rate (Campaign.converted_count c)
                           (Campaign.clicked_count c))
           else Campaign.conversion_rate c)) /\
  (forall m : CampaignMetric.t,
      exists m' : CampaignMetric.t,
        CampaignMetric.calculate_rates m = Some m' /\
        CampaignMetric.delivery_rate m'
        = (if CampaignMetric.sent_count m >? 0
           then Some (rate (CampaignMetric.delivered_count m)
                           (CampaignMetric.sent_count m))
           else CampaignMetric.delivery_rate m) /\
        CampaignMetric.open_rate m'
        = (if CampaignMetric.delivered_count m >? 0
           then Some (rate (CampaignMetric.opened_count m)
                           (CampaignMetric.delivered_count m))
           else CampaignMetric.open_rate m) /\
        CampaignMetric.click_rate m'
        = (if CampaignMetric.opened_count m >? 0
           then Some (rate (CampaignMetric.clicked_count m)
                           (CampaignMetric.opened_count m))
           else CampaignMetric.click_rate m) /\
        CampaignMetric.conversion_rate m'
        = (if CampaignMetric.clicked_count m >? 0
           then Some (rate (CampaignMetric.converted_count m)
                           (CampaignMetric.clicked_count m))
           else CampaignMetric.conversion_rate m)).
Proof.
  split.
  - intro c. eexists. split; [apply calculate_metrics_eq |].
    repeat split.
  - intro m. eexists. split; [apply calculate_rates_eq |].
    repeat split.
Qed.

(** C9.  [calculate_metrics] and [calculate_rates] leave the five counters
    as they were, write no rate whose denominator is zero (the field keeps
    the value it had before the call), and change no other field. *)
Theorem rates_frame :
  (forall c : Campaign.t,
      exists c' : Campaign.t,
        Campaign.calculate_metrics c = Some c' /\
        Campaign.sent_count c' = Campaign.sent_count c /\
        Campaign.delivered_count c' = Campaign.delivered_count c /\
        Campaign.opened_count c' = Campaign.opened_count c /\
        Campaign.clicked_count c' = Campaign.clicked_count c /\
        Campaign.converted_count c' = Campaign.converted_count c /\
        (Campaign.sent_count c = 0 ->
         Campaign.delivery_rate c' = Campaign.delivery_rate c) /\
        (Campaign.delivered_count c = 0 ->
         Campaign.open_rate c' = Campaign.open_rate c) /\
        (Campaign.opened_count c = 0 ->
         Campaign.click_rate c' = Campaign.click_rate c) /\
        (Campaign.clicked_count c = 0 ->
         Campaign.conversion_rate c' = Campaign.conversion_rate c) /\
        Campaign.actual_cost c' = Campaign.actual_cost c /\
        Campaign.audience_size c' = Campaign.audience_size c /\
        Campaign.unsubscribed_count c' = Campaign.unsubscribed_count c /\
        Campaign.roi c' = Campaign.roi c) /\
  (forall m : CampaignMetric.t,
      exists m' : CampaignMetric.t,
        CampaignMetric.calculate_rates m = Some m' /\
        CampaignMetric.sent_count m' = CampaignMetric.sent_count m /\
        CampaignMetric.delivered_count m' = CampaignMetric.delivered_count m /\
        CampaignMetric.opened_count m' = CampaignMetric.opened_count m /\
        CampaignMetric.clicked_count m' = CampaignMetric.clicked_count m /\
        CampaignMetric.converted_count m' = CampaignMetric.converted_count m /\
        (CampaignMetric.sent_count m = 0 ->
         CampaignMetric.delivery_rate m' = CampaignMetric.delivery_rate m) /\
        (CampaignMetric.delivered_count m = 0 ->
         CampaignMetric.open_rate m' = CampaignMetric.open_rate m) /\
        (CampaignMetric.opened_count m = 0 ->
         CampaignMetric.click_rate m' = CampaignMetric.click_rate m) /\
        (CampaignMetric.clicked_count m = 0 ->
         CampaignMetric.conversion_rate m'
         = CampaignMetric.conversion_rate m) /\
        CampaignMetric.metric_date m' = CampaignMetric.metric_date m /\
        CampaignMetric.unsubscribed_count m'
        = CampaignMetric.unsubscribed_count m /\
        CampaignMetric.bounced_count m' = CampaignMetric.bounced_count m /\
        CampaignMetric.cost m' = CampaignMetric.cost m).
Proof.
  split.
  - intro c. eexists. split; [apply calculate_metrics_eq |].
    cbn [Campaign.sent_count Campaign.delivered_count Campaign.opened_count
         Campaign.clicked_count Campaign.converted_count
         Campaign.delivery_rate Campaign.open_rate Campaign.click_rate
         Campaign.conversion_rate Campaign.actual_cost Campaign.audience_size
         Campaign.unsubscribed_count Campaign.roi].
    repeat split; intros ->; reflexivity.
  - intro m. eexists. split; [apply calculate_rates_eq |].
    cbn [CampaignMetric.sent_count CampaignMetric.delivered_count
         CampaignMetric.opened_count CampaignMetric.clicked_count
         CampaignMetric.converted_count CampaignMetric.delivery_rate
         CampaignMetric.open_rate CampaignMetric.click_rate
         CampaignMetric.conversion_rate CampaignMetric.metric_date
         CampaignMetric.unsubscribed_count CampaignMetric.bounced_count
         CampaignMetric.cost].
    repeat split; intros ->; reflexivity.
Qed.

(** ** Invoice items *)

(** C5, as stated, fails: without a discount percentage the stored
    [discount_amount] is what gets subtracted.  An item of one unit at 100
    with no percentage and a stored discount of 20 totals 80, not 100. *)
Lemma stored_discount_counterexample :
  InvoiceItem.discount_percent flat_discount_item = None /\
  snd (InvoiceItem.calculate_total flat_discount_item) = Py.of_int 80 /\
  stated_item_total flat_discount_item = Py.of_int 100 /\
  snd (InvoiceItem.calculate_total flat_discount_item)
  <> stated_item_total flat_discount_item.
Proof.
  assert (E1 : snd (InvoiceItem.calculate_total flat_discount_item)
               = Py.of_int 80) by (apply Qc_is_canon; reflexivity).
  assert (E2 : stated_item_total flat_discount_item = Py.of_int 100)
    by (apply Qc_is_canon; reflexivity).
  repeat split; try assumption.
  rewrite E1, E2. intro H. apply eqb_eq in H. discriminate H.
Qed.

Lemma or0_eq (x : option Py.Decimal) :
  Py.or0 x = match x with Some v => v | None => Py.of_int 0 end.
Proof.
  destruct x as [v |]; [| reflexivity]. cbn [Py.or0].
  destruct (Py.eqb v (Py.of_int 0)) eqn:E; [| reflexivity].
  apply eqb_eq in E. symmetry. exact E.
Qed.

Lemma calculate_total_eq (i : InvoiceItem.t) :
  InvoiceItem.calculate_total i
  = let total :=
      (InvoiceItem.quantity i * InvoiceItem.unit_price i
       - applied_discount i + applied_tax i)%Qc in
    ({| InvoiceItem.quantity := InvoiceItem.quantity i;
        InvoiceItem.unit_price := InvoiceItem.unit_price i;
        InvoiceItem.discount_percent := InvoiceItem.discount_percent i;
        InvoiceItem.discount_amount :=
          if Py.truthy (InvoiceItem.discount_percent i)
          then Some (applied_discount i)
          else InvoiceItem.discount_amount i;
        InvoiceItem.total_amount := total;
        InvoiceItem.tax_rate := InvoiceItem.tax_rate i;
        InvoiceItem.tax_amount :=
          if Py.truthy (InvoiceItem.tax_rate i)
          then Some (applied_tax i)
          else InvoiceItem.tax_amount i;
        InvoiceItem.sort_order := InvoiceItem.sort_order i |},
     total).
Proof.
  destruct i as [q up dp da tot tr ta so].
  unfold InvoiceItem.calculate_total, applied_tax, applied_discount.
  cbn [InvoiceItem.quantity InvoiceItem.unit_price
       InvoiceItem.discount_percent InvoiceItem.discount_amount
       InvoiceItem.tax_rate InvoiceItem.tax_amount].
  change (Py.truthy None) with false.
  destruct dp as [p |], tr as [r |];
    cbn [InvoiceItem.set_discount_amount InvoiceItem.set_tax_amount
         InvoiceItem.set_total_amount InvoiceItem.quantity
         InvoiceItem.unit_price InvoiceItem.discount_percent
         InvoiceItem.discount_amount InvoiceItem.total_amount
         InvoiceItem.tax_rate InvoiceItem.tax_amount InvoiceItem.sort_order];
    repeat match goal with
           | |- context [Py.truthy (Some ?x)] =>
               destruct (Py.truthy (Some x));
               cbn [InvoiceItem.set_discount_amount InvoiceItem.set_tax_amount
                    InvoiceItem.set_total_amount InvoiceItem.quantity
                    InvoiceItem.unit_price InvoiceItem.discount_percent
                    InvoiceItem.discount_amount InvoiceItem.total_amount
                    InvoiceItem.tax_rate InvoiceItem.tax_amount
                    InvoiceItem.sort_order]
           end;
    change (Py.truthy None) with false; cbn iota;
    rewrite ?or0_eq; reflexivity.
Qed.

Section ItemFacts.

Local Open Scope Qc_scope.

Lemma zero_percent (x : Py.Decimal) :
  x * (Py.of_int 0 / Py.of_int 100) = Py.of_int 0.
Proof.
  unfold Qcdiv. change (Py.of_int 0) with 0.
  rewrite Qcmult_0_l. apply Qcmult_0_r.
Qed.

Lemma applied_discount_stated (i : InvoiceItem.t) :
  Py.truthy (InvoiceItem.discount_percent i) = true \/
  Py.or0 (InvoiceItem.discount_amount i) = Py.of_int 0 ->
  applied_discount i
  = match InvoiceItem.discount_percent i with
    | Some p =>
        InvoiceItem.quantity i * InvoiceItem.unit_price i
        * (p / Py.of_int 100)
    | None => Py.of_int 0
    end.
Proof.
  unfold applied_discount.
  destruct (InvoiceItem.discount_percent i) as [p |].
  - destruct (Py.truthy (Some p)) eqn:E; [reflexivity |].
    intros [H | H]; [discriminate H |].
    apply truthy_false in E. subst p.
    rewrite zero_percent. exact H.
  - intros [H | H]; [discriminate H | exact H].
Qed.

Lemma applied_tax_stated (i : InvoiceItem.t) :
  Py.truthy (InvoiceItem.tax_rate i) = true \/
  Py.or0 (InvoiceItem.tax_amount i) = Py.of_int 0 ->
  applied_tax i
  = match InvoiceItem.tax_rate i with
    | Some r =>
        (InvoiceItem.quantity i * InvoiceItem.unit_price i
         - applied_discount i) * (r / Py.of_int 100)
    | None => Py.of_int 0
    end.
Proof.
  unfold applied_tax.
  destruct (InvoiceItem.tax_rate i) as [r |].
  - destruct (Py.truthy (Some r)) eqn:E; [reflexivity |].
    intros [H | H]; [discriminate H |].
    apply truthy_false in E. subst r.
    rewrite zero_percent. exact H.
  - intros [H | H]; [discriminate H | exact H].
Qed.

End ItemFacts.

(** C5, amended.  [calculate_total] computes subtotal = quantity *
    unit_price; the discount is subtotal * discount_percent / 100 when
    discount_percent is present and not zero, and otherwise the
    discount_amount already stored on the item (0 if none is stored);
    after_discount = subtotal - discount; the tax is after_discount *
    tax_rate / 100 when tax_rate is present and not zero, and otherwise the
    stored tax_amount (0 if none); total_amount = after_discount + tax is
    stored and returned.  The stored discount_amount and tax_amount are
    overwritten only in the computed case.  When no stale amount is stored
    the total is the one the specification states. *)
Theorem calculate_total_spec (i : InvoiceItem.t) :
  let subtotal := (InvoiceItem.quantity i * InvoiceItem.unit_price i)%Qc in
  let after_discount := (subtotal - applied_discount i)%Qc in
  let total := (after_discount + applied_tax i)%Qc in
  snd (InvoiceItem.calculate_total i) = total /\
  InvoiceItem.total_amount (fst (InvoiceItem.calculate_total i)) = total /\
  (forall p : Py.Decimal,
      InvoiceItem.discount_percent i = Some p -> p <> Py.of_int 0 ->
      applied_discount i = (subtotal * (p / Py.of_int 100))%Qc /\
      InvoiceItem.discount_amount (fst (InvoiceItem.calculate_total i))
      = Some (subtotal * (p / Py.of_int 100))%Qc) /\
  (InvoiceItem.discount_percent i = None \/
   InvoiceItem.discount_percent i = Some (Py.of_int 0) ->
   applied_discount i
   = match InvoiceItem.discount_amount i with
     | Some d => d
     | None => Py.of_int 0
     end /\
   InvoiceItem.discount_amount (fst (InvoiceItem.calculate_total i))
   = InvoiceItem.discount_amount i) /\
  (forall r : Py.Decimal,
      InvoiceItem.tax_rate i = Some r -> r <> Py.of_int 0 ->
      applied_tax i = (after_discount * (r / Py.of_int 100))%Qc /\
      InvoiceItem.tax_amount (fst (InvoiceItem.calculate_total i))
      = Some (after_discount * (r / Py.of_int 100))%Qc) /\
  (InvoiceItem.tax_rate i = None \/
   InvoiceItem.tax_rate i = Some (Py.of_int 0) ->
   applied_tax i
   = match InvoiceItem.tax_amount i with
     | Some a => a
     | None => Py.of_int 0
     end /\
   InvoiceItem.tax_amount (fst (InvoiceItem.calculate_total i))
   = InvoiceItem.tax_amount i) /\
  (Py.truthy (InvoiceItem.discount_percent i) = true \/
   Py.or0 (InvoiceItem.discount_amount i) = Py.of_int 0 ->
   Py.truthy (InvoiceItem.tax_rate i) = true \/
   Py.or0 (InvoiceItem.tax_amount i) = Py.of_int 0 ->
   snd (InvoiceItem.calculate_total i) = stated_item_total i).
Proof.
  intros subtotal after_discount total.
  rewrite calculate_total_eq.
  cbn [fst snd InvoiceItem.total_amount InvoiceItem.discount_amount
       InvoiceItem.tax_amount].
  split; [reflexivity | split; [reflexivity |]].
  split; [| split; [| split; [| split]]].
  - intros p Hp Hnz. unfold applied_discount. rewrite Hp.
    assert (T : Py.truthy (Some p) = true).
    { cbn [Py.truthy]. apply Bool.negb_true_iff.
      destruct (Py.eqb p (Py.of_int 0)) eqn:E; [| reflexivity].
      apply eqb_eq in E. contradiction. }
    rewrite T. split; reflexivity.
  - unfold applied_discount.
    intros [H | H]; rewrite H; rewrite or0_eq; split; reflexivity.
  - intros r Hr Hnz. unfold applied_tax. rewrite Hr.
    assert (T : Py.truthy (Some r) = true).
    { cbn [Py.truthy]. apply Bool.negb_true_iff.
      destruct (Py.eqb r (Py.of_int 0)) eqn:E; [| reflexivity].
      apply eqb_eq in E. contradiction. }
    rewrite T. split; reflexivity.
  - unfold applied_tax.
    intros [H | H]; rewrite H; rewrite or0_eq; split; reflexivity.
  - intros Hd Ht. unfold stated_item_total.
    rewrite (applied_tax_stated i Ht), (applied_discount_stated i Hd).
    reflexivity.
Qed.

(** ** Invoices *)

Example scenario_item_total :
  snd (InvoiceItem.calculate_total scenario_item) = Py.of_int 189.
Proof. apply Qc_is_canon. reflexivity. Qed.

Example scenario_invoice_total :
  Invoice.subtotal (Invoice.calculate_totals scenario_invoice) = Py.of_int 189
  /\ Invoice.tax_amount (Invoice.calculate_totals scenario_invoice)
     = Py.decimal 1512 100
  /\ Invoice.total_amount (Invoice.calculate_totals scenario_invoice)
     = Py.decimal 20412 100
  /\ Invoice.due_amount (Invoice.calculate_totals scenario_invoice)
     = Py.decimal 20412 100.
Proof. repeat split; apply Qc_is_canon; reflexivity. Qed.

(** C3.  [calculate_totals] sets subtotal to the sum of the items' stored
    total_amount, tax_amount to subtotal * tax_rate / 100 with the invoice's
    own rate (whatever tax the item totals already contain), total_amount to
    subtotal + tax_amount - discount_amount and due_amount to total_amount -
    paid_amount, reading discount_amount, paid_amount, tax_rate and the items
    and leaving them and the status as they were.  For an invoice whose one
    item has quantity 2, unit_price 100, discount_percent 10 and tax_rate 5,
    with invoice tax_rate 8, discount_amount 0 and paid_amount 0, the item
    total is 189 and the invoice total_amount is 204.12. *)
Theorem calculate_totals_spec :
  (forall inv : Invoice.t,
      Invoice.subtotal (Invoice.calculate_totals inv)
      = Py.sum (map InvoiceItem.total_amount (Invoice.items inv)) /\
      Invoice.tax_amount (Invoice.calculate_totals inv)
      = (Invoice.subtotal (Invoice.calculate_totals inv)
         * (Invoice.tax_rate inv / Py.of_int 100))%Qc /\
      Invoice.total_amount (Invoice.calculate_totals inv)
      = (Invoice.subtotal (Invoice.calculate_totals inv)
         + Invoice.tax_amount (Invoice.calculate_totals inv)
         - Invoice.discount_amount inv)%Qc /\
      Invoice.due_amount (Invoice.calculate_totals inv)
      = (Invoice.total_amount (Invoice.calculate_totals inv)
         - Invoice.paid_amount inv)%Qc /\
      Invoice.discount_amount (Invoice.calculate_totals inv)
      = Invoice.discount_amount inv /\
      Invoice.paid_amount (Invoice.calculate_totals inv)
      = Invoice.paid_amount inv /\
      Invoice.tax_rate (Invoice.calculate_totals inv) = Invoice.tax_rate inv /\
      Invoice.items (Invoice.calculate_totals inv) = Invoice.items inv /\
      Invoice.status (Invoice.calculate_totals inv) = Invoice.status inv /\
      Invoice.paid_date (Invoice.calculate_totals inv)
      = Invoice.paid_date inv) /\
  Py.sum [] = Py.of_int 0 /\
  (forall (x : Py.Decimal) (xs : list Py.Decimal),
      Py.sum (x :: xs) = (x + Py.sum xs)%Qc) /\
  (forall (item : InvoiceItem.t) (inv : Invoice.t),
      InvoiceItem.quantity item = Py.of_int 2 ->
      InvoiceItem.unit_price item = Py.of_int 100 ->
      InvoiceItem.discount_percent item = Some (Py.of_int 10) ->
      InvoiceItem.tax_rate item = Some (Py.of_int 5) ->
      Invoice.items inv = [fst (InvoiceItem.calculate_total item)] ->
      Invoice.tax_rate inv = Py.of_int 8 ->
      Invoice.discount_amount inv = Py.of_int 0 ->
      Invoice.paid_amount inv = Py.of_int 0 ->
      snd (InvoiceItem.calculate_total item) = Py.of_int 189 /\
      InvoiceItem.total_amount (fst (InvoiceItem.calculate_total item))
      = Py.of_int 189 /\
      Invoice.total_amount (Invoice.calculate_totals inv)
      = Py.decimal 20412 100).
Proof.
  split; [| split; [| split]].
  - intro inv. repeat split.
  - exact sum_nil.
  - exact sum_cons.
  - intros item inv Hq Hu Hd Ht Hi Hr Hda Hp.
    destruct item as [q up dp da tot tr ta so].
    destruct inv as [st sub tax disc total paid due rate pd its].
    cbn [InvoiceItem.quantity InvoiceItem.unit_price
         InvoiceItem.discount_percent InvoiceItem.tax_rate Invoice.items
         Invoice.tax_rate Invoice.discount_amount Invoice.paid_amount] in *.
    subst q up dp tr its rate disc paid.
    repeat split; apply Qc_is_canon; reflexivity.
Qed.

(** The scenario as an instance of [calculate_totals_spec]. *)
Lemma calculate_totals_scenario :
  snd (InvoiceItem.calculate_total scenario_item) = Py.of_int 189 /\
  InvoiceItem.total_amount (fst (InvoiceItem.calculate_total scenario_item))
  = Py.of_int 189 /\
  Invoice.total_amount (Invoice.calculate_totals scenario_invoice)
  = Py.decimal 20412 100.
Proof.
  destruct calculate_totals_spec as (_ & _ & _ & H).
  apply (H scenario_item scenario_invoice); reflexivity.
Defined.

Section PaymentFacts.

Local Open Scope Qc_scope.

Lemma minus_nonpos (t p : Py.Decimal) : t <= p <-> t - p <= Py.of_int 0.
Proof.
  unfold Qcle, Qcminus, Qcplus, Qcopp, Py.of_int, Q2Qc. cbn [this].
  rewrite !Qred_correct. unfold inject_Z. split; intro H; lra.
Qed.

Lemma minus_neg (t p : Py.Decimal) : t < p <-> t - p < Py.of_int 0.
Proof.
  unfold Qclt, Qcminus, Qcplus, Qcopp, Py.of_int, Q2Qc. cbn [this].
  rewrite !Qred_correct. unfold inject_Z. split; intro H; lra.
Qed.

Lemma minus_self (t : Py.Decimal) : t - (Py.of_int 0 + t) = Py.of_int 0.
Proof. change (Py.of_int 0) with 0. ring. Qed.

End PaymentFacts.

Ltac order_clash :=
  match goal with
  | H1 : (?a < ?b)%Qc, H2 : (?b <= ?a)%Qc |- _ =>
      exfalso; exact (Qclt_not_le _ _ H1 H2)
  end.

(** C4.  [add_payment] adds the amount to paid_amount, sets due_amount to
    total_amount - paid_amount, and then: if due_amount <= 0 the status
    becomes paid and paid_date is set; otherwise, if paid_amount > 0, the
    status becomes partially_paid; otherwise the status stays as it was.
    Hence on an invoice with paid_amount = 0 a payment equal to total_amount
    leaves due_amount exactly 0 and the status paid. *)
Theorem add_payment_spec (inv : Invoice.t) (amount : Py.Decimal) :
  Invoice.paid_amount (Invoice.add_payment inv amount)
  = (Invoice.paid_amount inv + amount)%Qc /\
  Invoice.due_amount (Invoice.add_payment inv amount)
  = (Invoice.total_amount inv
     - Invoice.paid_amount (Invoice.add_payment inv amount))%Qc /\
  Invoice.total_amount (Invoice.add_payment inv amount)
  = Invoice.total_amount inv /\
  ((Invoice.due_amount (Invoice.add_payment inv amount) <= Py.of_int 0)%Qc ->
   Invoice.status (Invoice.add_payment inv amount) = Invoice.PAID /\
   Invoice.paid_date (Invoice.add_payment inv amount)
   = Some Invoice.FuncNow) /\
  ((Py.of_int 0 < Invoice.due_amount (Invoice.add_payment inv amount))%Qc ->
   (Py.of_int 0 < Invoice.paid_amount (Invoice.add_payment inv amount))%Qc ->
   Invoice.status (Invoice.add_payment inv amount) = Invoice.PARTIALLY_PAID /\
   Invoice.paid_date (Invoice.add_payment inv amount)
   = Invoice.paid_date inv) /\
  ((Py.of_int 0 < Invoice.due_amount (Invoice.add_payment inv amount))%Qc ->
   (Invoice.paid_amount (Invoice.add_payment inv amount) <= Py.of_int 0)%Qc ->
   Invoice.status (Invoice.add_payment inv amount) = Invoice.status inv /\
   Invoice.paid_date (Invoice.add_payment inv amount)
   = Invoice.paid_date inv) /\
  (Invoice.paid_amount inv = Py.of_int 0 ->
   amount = Invoice.total_amount inv ->
   Invoice.due_amount (Invoice.add_payment inv amount) = Py.of_int 0 /\
   Invoice.status (Invoice.add_payment inv amount) = Invoice.PAID).
Proof.
  destruct inv as [st sub tax disc total paid due rate pd its].
  unfold Invoice.add_payment.
  cbn [Invoice.set_paid_amount Invoice.set_due_amount Invoice.paid_amount
       Invoice.due_amount Invoice.total_amount].
  destruct (Py.leb (total - (paid + amount))%Qc (Py.of_int 0)) eqn:L;
    [| destruct (Py.ltb (Py.of_int 0) (paid + amount)%Qc) eqn:P];
    cbn [Invoice.set_status Invoice.set_paid_date Invoice.status
         Invoice.paid_date Invoice.paid_amount Invoice.due_amount
         Invoice.total_amount].
  all: repeat split; intros; subst; try reflexivity;
    try apply minus_self;
    try apply leb_le in L; try apply leb_gt in L;
    try apply ltb_lt in P; try apply ltb_ge in P;
    try order_clash;
    exfalso; rewrite minus_self in L; apply ltb_lt in L; discriminate L.
Qed.

(** Paying an unpaid invoice of 100 in full, as an instance of
    [add_payment_spec]. *)
Lemma add_payment_in_full :
  Invoice.due_amount (Invoice.add_payment unpaid_invoice (Py.of_int 100))
  = Py.of_int 0 /\
  Invoice.status (Invoice.add_payment unpaid_invoice (Py.of_int 100))
  = Invoice.PAID.
Proof.
  destruct (add_payment_spec unpaid_invoice (Py.of_int 100))
    as (_ & _ & _ & _ & _ & _ & H).
  apply H; reflexivity.
Defined.

Example partial_payment :
  Invoice.status (Invoice.add_payment unpaid_invoice (Py.of_int 40))
  = Invoice.PARTIALLY_PAID /\
  Invoice.due_amount (Invoice.add_payment unpaid_invoice (Py.of_int 40))
  = Py.of_int 60 /\
  Invoice.paid_date (Invoice.add_payment unpaid_invoice (Py.of_int 40)) = None.
Proof. repeat split. Qed.

Example zero_payment_keeps_status :
  Invoice.status (Invoice.add_payment unpaid_invoice (Py.of_int 0))
  = Invoice.SENT.
Proof. reflexivity. Qed.

(** C10.  On overpayment, that is when paid_amount + amount exceeds
    total_amount, [add_payment] sets due_amount to total_amount -
    (paid_amount + amount), a strictly negative value that is not clamped at
    zero, and the status becomes paid (with paid_date set), whatever the
    sign of paid_amount. *)
Theorem overpayment_spec (inv : Invoice.t) (amount : Py.Decimal) :
  (Invoice.total_amount inv < Invoice.paid_amount inv + amount)%Qc ->
  Invoice.due_amount (Invoice.add_payment inv amount)
  = (Invoice.total_amount inv - (Invoice.paid_amount inv + amount))%Qc /\
  (Invoice.due_amount (Invoice.add_payment inv amount) < Py.of_int 0)%Qc /\
  Invoice.status (Invoice.add_payment inv amount) = Invoice.PAID /\
  Invoice.paid_date (Invoice.add_payment inv amount) = Some Invoice.FuncNow /\
  Invoice.paid_amount (Invoice.add_payment inv amount)
  = (Invoice.paid_amount inv + amount)%Qc.
Proof.
  intro Over.
  destruct inv as [st sub tax disc total paid due rate pd its].
  cbn [Invoice.total_amount Invoice.paid_amount] in Over.
  pose proof (proj1 (minus_neg _ _) Over) as Neg.
  assert (L : Py.leb (total - (paid + amount))%Qc (Py.of_int 0) = true)
    by (apply leb_le, Qclt_le_weak, Neg).
  unfold Invoice.add_payment.
  cbn [Invoice.set_paid_amount Invoice.set_due_amount Invoice.paid_amount
       Invoice.due_amount Invoice.total_amount].
  rewrite L.
  cbn [Invoice.set_status Invoice.set_paid_date Invoice.status
       Invoice.paid_date Invoice.paid_amount Invoice.due_amount].
  repeat split. exact Neg.
Qed.

(** Paying 100 on an invoice of 100 with 30 already paid leaves a due
    amount of -30 and the status paid. *)
Lemma overpayment_by_thirty :
  (Invoice.total_amount part_paid_invoice
   < Invoice.paid_amount part_paid_invoice + Py.of_int 100)%Qc /\
  Invoice.due_amount (Invoice.add_payment part_paid_invoice (Py.of_int 100))
  = Py.of_int (-30) /\
  Invoice.status (Invoice.add_payment part_paid_invoice (Py.of_int 100))
  = Invoice.PAID.
Proof.
  assert (Over : (Invoice.total_amount part_paid_invoice
                  < Invoice.paid_amount part_paid_invoice + Py.of_int 100)%Qc)
    by (apply ltb_lt; reflexivity).
  split; [exact Over |].
  destruct (overpayment_spec part_paid_invoice (Py.of_int 100) Over)
    as (Hd & _ & Hs & _).
  split; [| exact Hs].
  rewrite Hd. apply Qc_is_canon. reflexivity.
Defined.

(** ** Idempotence *)

Lemma calculate_lead_score_twice (l : Lead.t) (utcnow : Z) :
  Lead.calculate_lead_score (fst (Lead.calculate_lead_score l utcnow)) utcnow
  = Lead.calculate_lead_score l utcnow.
Proof. destruct l. reflexivity. Qed.

Lemma calculate_metrics_twice (c : Campaign.t) :
  bind (Campaign.calculate_metrics c) Campaign.calculate_metrics
  = Campaign.calculate_metrics c.
Proof.
  rewrite (calculate_metrics_eq c). cbn [bind].
  rewrite calculate_metrics_eq.
  cbn [Campaign.sent_count Campaign.delivered_count Campaign.opened_count
       Campaign.clicked_count Campaign.converted_count Campaign.delivery_rate
       Campaign.open_rate Campaign.click_rate Campaign.conversion_rate
       Campaign.actual_cost Campaign.audience_size
       Campaign.unsubscribed_count Campaign.roi].
  destruct (Campaign.sent_count c >? 0), (Campaign.delivered_count c >? 0),
    (Campaign.opened_count c >? 0), (Campaign.clicked_count c >? 0);
    reflexivity.
Qed.

Lemma calculate_rates_twice (m : CampaignMetric.t) :
  bind (CampaignMetric.calculate_rates m) CampaignMetric.calculate_rates
  = CampaignMetric.calculate_rates m.
Proof.
  rewrite (calculate_rates_eq m). cbn [bind].
  rewrite calculate_rates_eq.
  cbn [CampaignMetric.sent_count CampaignMetric.delivered_count
       CampaignMetric.opened_count CampaignMetric.clicked_count
       CampaignMetric.converted_count CampaignMetric.delivery_rate
       CampaignMetric.open_rate CampaignMetric.click_rate
       CampaignMetric.conversion_rate CampaignMetric.metric_date
       CampaignMetric.unsubscribed_count CampaignMetric.bounced_count
       CampaignMetric.cost].
  destruct (CampaignMetric.sent_count m >? 0),
    (CampaignMetric.delivered_count m >? 0),
    (CampaignMetric.opened_count m >? 0),
    (CampaignMetric.clicked_count m >? 0);
    reflexivity.
Qed.

Lemma calculate_total_twice (i : InvoiceItem.t) :
  InvoiceItem.calculate_total (fst (InvoiceItem.calculate_total i))
  = InvoiceItem.calculate_total i.
Proof.
  rewrite (calculate_total_eq i). cbn zeta. cbn [fst].
  rewrite calculate_total_eq. cbn zeta.
  destruct i as [q up dp da tot tr ta so].
  unfold applied_tax, applied_discount.
  cbn [InvoiceItem.quantity InvoiceItem.unit_price
       InvoiceItem.discount_percent InvoiceItem.discount_amount
       InvoiceItem.total_amount InvoiceItem.tax_rate InvoiceItem.tax_amount
       InvoiceItem.sort_order].
  change (Py.truthy None) with false.
  destruct dp as [p |]; [destruct (Py.truthy (Some p)) |];
    (destruct tr as [r |]; [destruct (Py.truthy (Some r)) |]);
    reflexivity.
Qed.

Lemma calculate_totals_twice (inv : Invoice.t) :
  Invoice.calculate_totals (Invoice.calculate_totals inv)
  = Invoice.calculate_totals inv.
Proof. destruct inv. reflexivity. Qed.

Lemma calculate_net_amount_twice (p : Payment.t) :
  Payment.calculate_net_amount (fst (Payment.calculate_net_amount p))
  = Payment.calculate_net_amount p.
Proof. destruct p. reflexivity. Qed.

Lemma hundredth (p : Z) :
  PyNum.truediv (PyNum.Int p) (PyNum.Int 100)
  = Some (PyNum.Float (Py.of_int p / Py.of_int 100)%Qc).
Proof. reflexivity. Qed.

Lemma calculate_weighted_amount_twice (o : Opportunity.t) :
  Opportunity.calculate_weighted_amount
    (fst (Opportunity.calculate_weighted_amount o))
  = Opportunity.calculate_weighted_amount o.
Proof.
  destruct o as [a p w]. unfold Opportunity.calculate_weighted_amount.
  cbn [Opportunity.amount Opportunity.probability].
  destruct a as [a |]; [| reflexivity].
  destruct (andb (Py.truthy (Some a)) (negb (p =? 0))) eqn:C.
  - rewrite hundredth. cbn [bind PyNum.mul fst Opportunity.amount
                            Opportunity.probability].
    rewrite C, hundredth. reflexivity.
  - cbn [fst Opportunity.amount Opportunity.probability].
    rewrite C. reflexivity.
Qed.

(** C8.  Every calculator is idempotent: run a second time on the record the
    first run left, with the same current time, it returns the same value
    and leaves the same record.  This holds for the lead score, the campaign
    and per-day rates, the item total, the invoice totals, the payment net
    amount and the weighted opportunity amount.  The lead score depends on
    the input fields only, not on the scores and quality stored before; the
    health score assigns nothing and depends only on the customer's
    engagement_score, satisfaction_score, last_contact_date and
    total_revenue, and on the current time.  What is compared is the whole
    outcome, the exception included: a health score that raises raises
    again, and a weighted amount that raises has left the opportunity as it
    was and raises again on it. *)
Theorem calculators_idempotent :
  (forall (l : Lead.t) (utcnow : Z),
      Lead.calculate_lead_score
        (fst (Lead.calculate_lead_score l utcnow)) utcnow
      = Lead.calculate_lead_score l utcnow) /\
  (forall (l : Lead.t) (q : option Lead.LeadQuality)
          (s d b e : option Z) (utcnow : Z),
      Lead.calculate_lead_score
        (Lead.mk (Lead.company_size l) (Lead.annual_revenue l)
                 (Lead.job_title l) (Lead.website_visits l)
                 (Lead.email_opens l) (Lead.email_clicks l)
                 (Lead.total_interactions l) (Lead.last_contact_date l)
                 q s d b e) utcnow
      = Lead.calculate_lead_score l utcnow) /\
  (forall (c : Customer.t) (lv : option Py.Decimal) (orders : Z)
          (purchase : option Z) (churn : option Py.Decimal) (utcnow : Z),
      Customer.calculate_health_score
        (Customer.mk lv (Customer.total_revenue c) orders
                     (Customer.last_contact_date c) purchase
                     (Customer.engagement_score c)
                     (Customer.satisfaction_score c) churn) utcnow
      = Customer.calculate_health_score c utcnow) /\
  (forall c : Campaign.t,
      bind (Campaign.calculate_metrics c) Campaign.calculate_metrics
      = Campaign.calculate_metrics c) /\
  (forall m : CampaignMetric.t,
      bind (CampaignMetric.calculate_rates m) CampaignMetric.calculate_rates
      = CampaignMetric.calculate_rates m) /\
  (forall i : InvoiceItem.t,
      InvoiceItem.calculate_total (fst (InvoiceItem.calculate_total i))
      = InvoiceItem.calculate_total i) /\
  (forall inv : Invoice.t,
      Invoice.calculate_totals (Invoice.calculate_totals inv)
      = Invoice.calculate_totals inv) /\
  (forall p : Payment.t,
      Payment.calculate_net_amount (fst (Payment.calculate_net_amount p))
      = Payment.calculate_net_amount p) /\
  (forall o : Opportunity.t,
      Opportunity.calculate_weighted_amount
        (fst (Opportunity.calculate_weighted_amount o))
      = Opportunity.calculate_weighted_amount o).
Proof.
  split; [exact calculate_lead_score_twice |].
  split; [intros l q s d b e utcnow; destruct l; reflexivity |].
  split; [intros c lv orders purchase churn utcnow; destruct c; reflexivity |].
  split; [exact calculate_metrics_twice |].
  split; [exact calculate_rates_twice |].
  split; [exact calculate_total_twice |].
  split; [exact calculate_totals_twice |].
  split; [exact calculate_net_amount_twice |].
  exact calculate_weighted_amount_twice.
Qed.

(** ** Instances *)

(** A score of 85 is hot and ranks at least as high as a score of 60, as an
    instance of [lead_quality_tiers]. *)
Lemma lead_quality_tiers_at_85 :
  Lead.quality_for 85 = Lead.HOT /\
  Lead.tier (Lead.quality_for 60) <= Lead.tier (Lead.quality_for 85).
Proof.
  destruct lead_quality_tiers as (_ & _ & _ & Hmono & Hhot & _).
  split; [apply Hhot; lia | apply Hmono; lia].
Defined.


(** The stale campaign keeps its delivery rate: an instance of
    [rates_frame]. *)
Lemma stale_campaign_keeps_rate :
  exists c : Campaign.t,
    Campaign.calculate_metrics stale_campaign = Some c /\
    Campaign.delivery_rate c = Some (Py.of_int 95).
Proof.
  destruct rates_frame as [H _].
  destruct (H stale_campaign) as (c & E & _ & _ & _ & _ & _ & Hd & _).
  exists c. split; [exact E | exact (Hd eq_refl)].
Defined.

(** The scenario item has a discount percentage of 10, so the discount
    stored on it is 20: an instance of [calculate_total_spec]. *)
Lemma scenario_item_discount :
  InvoiceItem.discount_amount (fst (InvoiceItem.calculate_total scenario_item))
  = Some (Py.of_int 20).
Proof.
  destruct (calculate_total_spec scenario_item) as (_ & _ & H & _).
  destruct (H (Py.of_int 10) eq_refl) as [_ E].
  - intro Z. apply eqb_eq in Z. discriminate Z.
  - rewrite E. f_equal. apply Qc_is_canon. reflexivity.
Defined.

(** ** Checks of the Python fragment *)

Example lower_title : Py.lower "Sales Director" = "sales director"%string.
Proof. reflexivity. Qed.

Example title_matches :
  Py.contains "director" (Py.lower "Sales Director") = true /\
  Py.contains "cto" (Py.lower "Engineer") = false /\
  Py.contains "cto" (Py.lower "Rector") = true /\
  Py.contains "ceo" (Py.lower EmptyString) = false.
Proof. repeat split. Qed.

Example days_floor :
  Py.days_between (3 * Py.microseconds_per_day - 1) 0 = 2 /\
  Py.days_between 0 1 = -1.
Proof. split; reflexivity. Qed.

Example min_first_on_tie :
  Py.min (Py.of_int 40) (Py.of_int 40) = Py.of_int 40 /\
  Py.min (Py.of_int 50) (Py.of_int 20) = Py.of_int 20.
Proof. split; reflexivity. Qed.

(** * Further properties of the models *)

(** ** List-valued attributes *)

Lemma mem_In (x : string) (xs : list string) :
  PyList.mem x xs = true <-> In x xs.
Proof.
  unfold PyList.mem. rewrite existsb_exists. split.
  - intros (y & Hy & E). apply String.eqb_eq in E. subst y. exact Hy.
  - intro H. exists x. split; [exact H | apply String.eqb_refl].
Qed.

Lemma mem_not_In (x : string) (xs : list string) :
  PyList.mem x xs = false <-> ~ In x xs.
Proof.
  rewrite <- mem_In. destruct (PyList.mem x xs); split; intro H.
  - discriminate H.
  - exfalso. apply H. reflexivity.
  - intro D. discriminate D.
  - reflexivity.
Qed.

Lemma mem_app_self (x : string) (xs : list string) :
  PyList.mem x (xs ++ [x]) = true.
Proof. apply mem_In, in_or_app. right. left. reflexivity. Qed.

(** [remove] succeeds exactly on lists that hold the element, and takes
    out one occurrence of it and nothing else. *)
Lemma remove_counts (x : string) (xs : list string) :
  In x xs ->
  exists ys,
    PyList.remove x xs = Some ys /\
    S (count_occ string_dec ys x) = count_occ string_dec xs x /\
    (forall y, y <> x ->
               count_occ string_dec ys y = count_occ string_dec xs y).
Proof.
  induction xs as [| y ys IH]; intro H; [destruct H |].
  cbn [PyList.remove]. destruct (String.eqb_spec y x) as [E | N].
  - subst y. exists ys. split; [reflexivity |]. split.
    + cbn [count_occ]. destruct (string_dec x x); congruence.
    + intros z Hz. cbn [count_occ].
      destruct (string_dec x z); congruence.
  - destruct H as [H | H]; [contradiction |].
    destruct (IH H) as (zs & E & Hc & Ho). rewrite E. cbn [bind].
    exists (y :: zs). split; [reflexivity |]. split.
    + cbn [count_occ]. destruct (string_dec y x); [contradiction | exact Hc].
    + intros z Hz. cbn [count_occ].
      destruct (string_dec y z); [f_equal |]; apply Ho, Hz.
Qed.

Lemma remove_absent (x : string) (xs : list string) :
  ~ In x xs -> PyList.remove x xs = None.
Proof.
  induction xs as [| y ys IH]; intro H; [reflexivity |].
  cbn [PyList.remove]. destruct (String.eqb_spec y x) as [E | N].
  - exfalso. apply H. left. exact E.
  - rewrite IH; [reflexivity |]. intro I. apply H. right. exact I.
Qed.

Lemma remove_subset (x : string) (xs ys : list string) :
  PyList.remove x xs = Some ys -> forall y, In y ys -> In y xs.
Proof.
  revert ys. induction xs as [| z zs IH]; intros ys E y Hy; [discriminate E |].
  cbn [PyList.remove] in E. destruct (String.eqb z x).
  - injection E as <-. right. exact Hy.
  - destruct (PyList.remove x zs) as [ws |]; [| discriminate E].
    cbn [bind] in E. injection E as <-.
    destruct Hy as [Hy | Hy]; [left; exact Hy | right].
    apply (IH ws eq_refl). exact Hy.
Qed.

Lemma remove_NoDup (x : string) (xs ys : list string) :
  NoDup xs -> PyList.remove x xs = Some ys -> NoDup ys /\ ~ In x ys.
Proof.
  revert ys. induction xs as [| z zs IH]; intros ys N E; [discriminate E |].
  inversion N as [| ? ? Hz Nz]; subst.
  cbn [PyList.remove] in E. destruct (String.eqb_spec z x) as [Ezx | Nzx].
  - injection E as <-. subst z. split; assumption.
  - destruct (PyList.remove x zs) as [ws |] eqn:R; [| discriminate E].
    cbn [bind] in E. injection E as <-.
    destruct (IH ws Nz eq_refl) as [Nw Hx]. split.
    + constructor; [| exact Nw].
      intro I. apply Hz. exact (remove_subset x zs ws R z I).
    + intros [I | I]; [contradiction | exact (Hx I)].
Qed.

Lemma remove_last (x : string) (xs : list string) :
  ~ In x xs -> PyList.remove x (xs ++ [x]) = Some xs.
Proof.
  induction xs as [| y ys IH]; intro H; cbn [app PyList.remove].
  - rewrite String.eqb_refl. reflexivity.
  - destruct (String.eqb_spec y x) as [E | N].
    + exfalso. apply H. left. exact E.
    + rewrite IH; [reflexivity |]. intro I. apply H. right. exact I.
Qed.

Lemma NoDup_snoc (x : string) (xs : list string) :
  NoDup xs -> ~ In x xs -> NoDup (xs ++ [x]).
Proof.
  intros N H. apply NoDup_app.
  - exact N.
  - constructor; [intros [] | constructor].
  - intros y Hy [E | []]. subst y. exact (H Hy).
Qed.

(** X1.  On an object whose tags are a list, [add_tag] succeeds, the tag
    is in the list afterwards, the earlier tags keep their places at the
    front and at most one element is appended; adding the same tag again
    changes nothing.  On an object whose tags are [None] both [add_tag] and
    [remove_tag] raise. *)
Theorem add_tag_appends_once :
  (forall (ts : list string) (tag : string),
      exists ts' : list string,
        Tagged.add_tag (Tagged.mk (Some ts)) tag
        = Some (Tagged.mk (Some ts')) /\
        In tag ts' /\
        (ts' = ts \/ ts' = ts ++ [tag]) /\
        (In tag ts -> ts' = ts) /\
        Tagged.add_tag (Tagged.mk (Some ts')) tag
        = Some (Tagged.mk (Some ts'))) /\
  (forall tag : string,
      Tagged.add_tag (Tagged.mk None) tag = None /\
      Tagged.remove_tag (Tagged.mk None) tag = None).
Proof.
  split; [| intro tag; split; reflexivity].
  intros ts tag. unfold Tagged.add_tag. cbn [Tagged.tags].
  destruct (PyList.mem tag ts) eqn:M; cbn [negb].
  - exists ts. rewrite M. cbn [negb].
    repeat split; auto. apply mem_In. exact M.
  - exists (ts ++ [tag]). rewrite mem_app_self. cbn [negb].
    repeat split; auto.
    + apply in_or_app. right. left. reflexivity.
    + intro I. apply mem_In in I. congruence.
Qed.

(** X2.  On an object whose tags are a list, [remove_tag] never raises and
    takes out exactly one occurrence of the tag, the first, when there is
    one: the number of occurrences of the tag drops by one (or stays 0) and
    every other tag keeps its number of occurrences.  A tag stored twice is
    therefore still present after one [remove_tag]. *)
Theorem remove_tag_takes_one :
  forall (ts : list string) (tag : string),
    exists ts' : list string,
      Tagged.remove_tag (Tagged.mk (Some ts)) tag
      = Some (Tagged.mk (Some ts')) /\
      count_occ string_dec ts' tag = Nat.pred (count_occ string_dec ts tag) /\
      (forall other : string,
          other <> tag ->
          count_occ string_dec ts' other = count_occ string_dec ts other) /\
      ((1 < count_occ string_dec ts tag)%nat -> In tag ts') /\
      (~ In tag ts -> ts' = ts).
Proof.
  intros ts tag. unfold Tagged.remove_tag. cbn [Tagged.tags].
  destruct (PyList.mem tag ts) eqn:M.
  - apply mem_In in M.
    destruct (remove_counts tag ts M) as (ys & E & Hc & Ho).
    rewrite E. cbn [bind]. exists ys.
    split; [reflexivity |]. split; [| split; [exact Ho | split]].
    + rewrite <- Hc. reflexivity.
    + intro H. apply (count_occ_In string_dec). lia.
    + intro N. contradiction.
  - apply mem_not_In in M. exists ts.
    split; [reflexivity |]. split; [| split; [reflexivity | split]].
    + apply (count_occ_not_In string_dec) in M. rewrite M. reflexivity.
    + intro H. apply (count_occ_not_In string_dec) in M. lia.
    + reflexivity.
Qed.

(** X3.  Adding a tag the list does not hold and then removing it gives
    back the list as it was, order included. *)
Theorem add_then_remove_tag (ts : list string) (tag : string) :
  ~ In tag ts ->
  (self <- Tagged.add_tag (Tagged.mk (Some ts)) tag ;;
   Tagged.remove_tag self tag)
  = Some (Tagged.mk (Some ts)).
Proof.
  intro H. unfold Tagged.add_tag. cbn [Tagged.tags].
  rewrite (proj2 (mem_not_In tag ts) H). cbn [negb bind].
  unfold Tagged.remove_tag. cbn [Tagged.tags].
  rewrite mem_app_self, (remove_last tag ts H). reflexivity.
Qed.

Lemma add_then_remove_tag_example :
  (self <- Tagged.add_tag (Tagged.mk (Some ["vip"; "emea"]%string)) "trial" ;;
   Tagged.remove_tag self "trial")
  = Some (Tagged.mk (Some ["vip"; "emea"]%string)).
Proof.
  apply add_then_remove_tag.
  intros [E | [E | []]]; discriminate E.
Defined.

Lemma call_tag_NoDup (ts : list string) (c : tag_call) :
  NoDup ts ->
  exists ts',
    call_tag (Tagged.mk (Some ts)) c = Some (Tagged.mk (Some ts')) /\
    NoDup ts' /\
    (forall tag, c = RemoveTag tag -> ~ In tag ts') /\
    (forall tag, c = AddTag tag -> In tag ts').
Proof.
  intro N. destruct c as [tag | tag]; cbn [call_tag].
  - unfold Tagged.add_tag. cbn [Tagged.tags].
    destruct (PyList.mem tag ts) eqn:M; cbn [negb].
    + exists ts. repeat split; auto; try discriminate.
      intros t E. injection E as <-. apply mem_In. exact M.
    + exists (ts ++ [tag]). apply mem_not_In in M.
      repeat split; auto using NoDup_snoc; try discriminate.
      intros t E. injection E as <-. apply in_or_app. right. left.
      reflexivity.
  - unfold Tagged.remove_tag. cbn [Tagged.tags].
    destruct (PyList.mem tag ts) eqn:M.
    + apply mem_In in M.
      destruct (remove_counts tag ts M) as (ys & E & _ & _).
      rewrite E. cbn [bind]. exists ys.
      destruct (remove_NoDup tag ts ys N E) as [Ny Hy].
      repeat split; auto; try discriminate.
      intros t Et. injection Et as <-. exact Hy.
    + apply mem_not_In in M. exists ts.
      repeat split; auto; try discriminate.
      intros t Et. injection Et as <-. exact M.
Qed.

Lemma call_tags_NoDup (calls : list tag_call) (ts : list string) :
  NoDup ts ->
  exists ts',
    call_tags calls (Tagged.mk (Some ts)) = Some (Tagged.mk (Some ts')) /\
    NoDup ts'.
Proof.
  revert ts. induction calls as [| c rest IH]; intros ts N.
  - exists ts. split; [reflexivity | exact N].
  - destruct (call_tag_NoDup ts c N) as (ts1 & E1 & N1 & _).
    destruct (IH ts1 N1) as (ts2 & E2 & N2).
    exists ts2. cbn [call_tags]. rewrite E1. cbn [bind].
    split; [exact E2 | exact N2].
Qed.

Lemma call_tags_app (xs ys : list tag_call) (self : Tagged.t) :
  call_tags (xs ++ ys) self = (s <- call_tags xs self ;; call_tags ys s).
Proof.
  revert self. induction xs as [| c rest IH]; intro self; [reflexivity |].
  cbn [app call_tags]. destruct (call_tag self c); [apply IH | reflexivity].
Qed.

(** X4.  Starting from the column default, an empty list, any sequence of
    [add_tag] and [remove_tag] calls runs without raising and leaves a list
    without duplicates; so whenever the last call was [remove_tag tag] the
    tag is absent, and whenever it was [add_tag tag] it is present. *)
Theorem tags_stay_duplicate_free :
  forall calls : list tag_call,
    exists ts : list string,
      call_tags calls untagged = Some (Tagged.mk (Some ts)) /\
      NoDup ts /\
      (forall (tag : string) (ts' : list string),
          call_tags (calls ++ [RemoveTag tag]) untagged
          = Some (Tagged.mk (Some ts')) ->
          ~ In tag ts') /\
      (forall (tag : string) (ts' : list string),
          call_tags (calls ++ [AddTag tag]) untagged
          = Some (Tagged.mk (Some ts')) ->
          In tag ts' /\ NoDup ts').
Proof.
  intro calls.
  destruct (call_tags_NoDup calls [] (NoDup_nil _)) as (ts & E & N).
  exists ts. split; [exact E |]. split; [exact N |].
  unfold untagged in *. split; intros tag ts' H;
    rewrite call_tags_app, E in H; cbn [bind call_tags] in H.
  - destruct (call_tag_NoDup ts (RemoveTag tag) N) as (ts1 & E1 & _ & Hr & _).
    rewrite E1 in H. cbn [bind] in H. injection H as <-.
    apply Hr. reflexivity.
  - destruct (call_tag_NoDup ts (AddTag tag) N) as (ts1 & E1 & N1 & _ & Ha).
    rewrite E1 in H. cbn [bind] in H. injection H as <-.
    split; [apply Ha; reflexivity | exact N1].
Qed.

(** ** Roles and users *)

Lemma mem_same_count (q : string) (xs ys : list string) :
  count_occ string_dec ys q = count_occ string_dec xs q ->
  PyList.mem q ys = PyList.mem q xs.
Proof.
  intro H.
  destruct (PyList.mem q xs) eqn:X.
  - apply mem_In. apply mem_In in X.
    apply (count_occ_In string_dec) in X.
    apply (count_occ_In string_dec). lia.
  - apply mem_not_In. apply mem_not_In in X.
    apply (count_occ_not_In string_dec) in X.
    apply (count_occ_not_In string_dec). lia.
Qed.

(** X5.  [Role.add_permission] grants the permission and revokes none;
    [Role.remove_permission] never raises, leaves every other permission
    as it was, and keeps the role's other columns; it revokes the permission
    when the list held it once, and both methods keep a list without
    duplicates free of duplicates. *)
Theorem role_permissions_add_remove :
  forall (r : Role.t) (p : string),
    Role.has_permission (Role.add_permission r p) p = true /\
    (forall q : string,
        Role.has_permission r q = true ->
        Role.has_permission (Role.add_permission r p) q = true) /\
    (NoDup (Role.permissions r) ->
     NoDup (Role.permissions (Role.add_permission r p))) /\
    exists r' : Role.t,
      Role.remove_permission r p = Some r' /\
      Role.name r' = Role.name r /\
      Role.is_active r' = Role.is_active r /\
      Role.is_system_role r' = Role.is_system_role r /\
      (forall q : string,
          q <> p -> Role.has_permission r' q = Role.has_permission r q) /\
      (NoDup (Role.permissions r) ->
       Role.has_permission r' p = false /\ NoDup (Role.permissions r')).
Proof.
  intros r p. destruct r as [n a s ps].
  unfold Role.add_permission, Role.remove_permission, Role.has_permission.
  cbn [Role.permissions].
  destruct (PyList.mem p ps) eqn:M; cbn [negb Role.set_permissions
    Role.permissions Role.name Role.is_active Role.is_system_role].
  - split; [exact M |]. split; [auto |]. split; [auto |].
    pose proof (proj1 (mem_In p ps) M) as I.
    destruct (remove_counts p ps I) as (ys & E & Hc & Ho).
    rewrite E. cbn [bind]. eexists. split; [reflexivity |].
    cbn [Role.set_permissions Role.permissions Role.name Role.is_active
         Role.is_system_role].
    repeat split.
    + intros q Hq. apply mem_same_count. apply Ho. exact Hq.
    + apply mem_not_In. exact (proj2 (remove_NoDup p ps ys H E)).
    + exact (proj1 (remove_NoDup p ps ys H E)).
  - split; [apply mem_app_self |]. split; [| split].
    + intros q Hq. apply mem_In. apply in_or_app. left.
      apply mem_In. exact Hq.
    + intro N. apply NoDup_snoc; [exact N |]. apply mem_not_In. exact M.
    + eexists. split; [reflexivity |]. repeat split; assumption.
Qed.

Lemma any_role_permits_iff (rs : list Role.t) (p : string) :
  User.any_role_permits rs p = true <->
  exists r, In r rs /\ In p (Role.permissions r).
Proof.
  induction rs as [| r rest IH]; cbn [User.any_role_permits].
  - split; [discriminate | intros (r & [] & _)].
  - destruct (PyList.mem p (Role.permissions r)) eqn:M.
    + split; [| reflexivity]. intros _. exists r.
      split; [left; reflexivity | apply mem_In; exact M].
    + rewrite IH. split.
      * intros (x & Hx & Hp). exists x. split; [right; exact Hx | exact Hp].
      * intros (x & [E | Hx] & Hp).
        -- subst x. apply mem_In in Hp. congruence.
        -- exists x. split; assumption.
Qed.

(** X6.  A user has a permission exactly when one of the user's roles
    lists it, and has a role exactly when one of them bears the name.
    Nothing else is consulted: a role that is not active still grants its
    permissions, and a superuser without roles has no permission at all. *)
Theorem user_permission_comes_from_roles :
  (forall (u : User.t) (p : string),
      User.has_permission u p = true <->
      exists r : Role.t, In r (User.roles u) /\ In p (Role.permissions r)) /\
  (forall (u : User.t) (n : string),
      User.has_role u n = true <->
      exists r : Role.t, In r (User.roles u) /\ Role.name r = n) /\
  (forall (active super : bool) (failed : Z) (locked : option Z)
          (rs : list Role.t) (inactive : Role.t) (p : string),
      Role.is_active inactive = false ->
      In p (Role.permissions inactive) ->
      User.has_permission
        (User.mk active super failed locked (rs ++ [inactive])) p = true) /\
  (forall (active : bool) (failed : Z) (locked : option Z) (p : string),
      User.has_permission (User.mk active true failed locked []) p = false).
Proof.
  split; [| split; [| split]].
  - intros u p. apply any_role_permits_iff.
  - intros u n. unfold User.has_role. rewrite existsb_exists.
    split; intros (r & Hr & E); exists r; split; try exact Hr;
      apply String.eqb_eq; exact E.
  - intros active super failed locked rs inactive p _ Hp.
    apply any_role_permits_iff. exists inactive.
    split; [apply in_or_app; right; left; reflexivity | exact Hp].
  - reflexivity.
Qed.

(** X7.  An account lock ends for good and a role assignment expires for
    good: if the user is not locked at some time the user is not locked at
    any later time, and an assignment expired at some time is expired at
    any later time.  Both bounds are exclusive: at [locked_until] itself
    the account is no longer locked, and at [expires_at] itself the
    assignment is not yet expired.  Without a date neither ever holds. *)
Theorem lock_and_expiry_over_time :
  (forall (u : User.t) (t1 t2 : Z),
      t1 <= t2 -> User.is_locked u t1 = false -> User.is_locked u t2 = false)
  /\
  (forall (a : UserRole.t) (t1 t2 : Z),
      t1 <= t2 ->
      UserRole.is_expired a t1 = true -> UserRole.is_expired a t2 = true) /\
  (forall (u : User.t) (until now : Z),
      User.locked_until u = Some until ->
      (User.is_locked u now = true <-> now < until)) /\
  (forall (a : UserRole.t) (at_ now : Z),
      UserRole.expires_at a = Some at_ ->
      (UserRole.is_expired a now = true <-> at_ < now)) /\
  (forall (u : User.t) (now : Z),
      User.locked_until u = None -> User.is_locked u now = false) /\
  (forall (a : UserRole.t) (now : Z),
      UserRole.expires_at a = None -> UserRole.is_expired a now = false).
Proof.
  unfold User.is_locked, UserRole.is_expired.
  split; [| split; [| split; [| split; [| split]]]].
  - intros u t1 t2 H. destruct (User.locked_until u); [| reflexivity].
    intro L. apply Z.ltb_ge in L. apply Z.ltb_ge. lia.
  - intros a t1 t2 H. destruct (UserRole.expires_at a); [| discriminate].
    intro L. apply Z.gtb_lt in L. apply Z.gtb_lt. lia.
  - intros u until now ->. apply Z.ltb_lt.
  - intros a at_ now ->. rewrite Z.gtb_ltb. apply Z.ltb_lt.
  - intros u now ->. reflexivity.
  - intros a now ->. reflexivity.
Qed.

(** ** Overdue invoices and tasks *)

(** X8.  A payment that covers what is due settles the invoice for the
    overdue check as well: once [paid_amount + amount] reaches
    [total_amount], [is_overdue] is false at every time, whatever the due
    date and the status before. *)
Theorem settled_invoice_is_never_overdue
  (d : DatedInvoice.t) (amount : Py.Decimal) (utcnow : Z) :
  (Invoice.total_amount (DatedInvoice.invoice d)
   <= Invoice.paid_amount (DatedInvoice.invoice d) + amount)%Qc ->
  DatedInvoice.is_overdue (DatedInvoice.add_payment d amount) utcnow = false.
Proof.
  intro Cover. destruct d as [inv due].
  destruct inv as [st sub tax disc total paid due_amt rate pd its].
  cbn [DatedInvoice.invoice Invoice.total_amount Invoice.paid_amount]
    in Cover.
  assert (L : Py.leb (total - (paid + amount))%Qc (Py.of_int 0) = true)
    by (apply leb_le; apply (proj1 (minus_nonpos _ _)); exact Cover).
  unfold DatedInvoice.is_overdue, DatedInvoice.add_payment,
    Invoice.add_payment.
  cbn [DatedInvoice.invoice DatedInvoice.due_date Invoice.set_paid_amount
       Invoice.set_due_amount Invoice.paid_amount Invoice.due_amount
       Invoice.total_amount].
  rewrite L. reflexivity.
Qed.

Lemma settled_invoice_example :
  DatedInvoice.is_overdue
    (DatedInvoice.add_payment (unpaid_dated_invoice 1000) (Py.of_int 100))
    5000
  = false.
Proof.
  apply settled_invoice_is_never_overdue. apply leb_le. reflexivity.
Defined.

(** X9.  A payment that leaves something due on a positive paid amount
    makes the invoice partially paid, and from then on it is overdue exactly
    when the current time is past the due date, whatever its status was
    before the payment (draft and cancelled invoices included). *)
Theorem part_paid_invoice_overdue_after_due_date
  (d : DatedInvoice.t) (amount : Py.Decimal) (utcnow : Z) :
  (Invoice.paid_amount (DatedInvoice.invoice d) + amount
   < Invoice.total_amount (DatedInvoice.invoice d))%Qc ->
  (Py.of_int 0 < Invoice.paid_amount (DatedInvoice.invoice d) + amount)%Qc ->
  Invoice.status (DatedInvoice.invoice (DatedInvoice.add_payment d amount))
  = Invoice.PARTIALLY_PAID /\
  (DatedInvoice.is_overdue (DatedInvoice.add_payment d amount) utcnow = true
   <-> DatedInvoice.due_date d < utcnow).
Proof.
  intros Short Pos. destruct d as [inv due].
  destruct inv as [st sub tax disc total paid due_amt rate pd its].
  cbn [DatedInvoice.invoice DatedInvoice.due_date Invoice.total_amount
       Invoice.paid_amount] in *.
  assert (L : Py.leb (total - (paid + amount))%Qc (Py.of_int 0) = false).
  { apply leb_gt. apply Qcnot_le_lt. intro H.
    apply (proj2 (minus_nonpos _ _)) in H. exact (Qclt_not_le _ _ Short H). }
  assert (P : Py.ltb (Py.of_int 0) (paid + amount)%Qc = true)
    by (apply ltb_lt, Pos).
  unfold DatedInvoice.is_overdue, DatedInvoice.add_payment,
    Invoice.add_payment.
  cbn [DatedInvoice.invoice DatedInvoice.due_date Invoice.set_paid_amount
       Invoice.set_due_amount Invoice.paid_amount Invoice.due_amount
       Invoice.total_amount].
  rewrite L, P. cbn [Invoice.set_status Invoice.status].
  split; [reflexivity |]. rewrite Z.gtb_ltb. apply Z.ltb_lt.
Qed.

Lemma part_paid_invoice_example :
  Invoice.status
    (DatedInvoice.invoice
       (DatedInvoice.add_payment (unpaid_dated_invoice 1000) (Py.of_int 40)))
  = Invoice.PARTIALLY_PAID /\
  (DatedInvoice.is_overdue
     (DatedInvoice.add_payment (unpaid_dated_invoice 1000) (Py.of_int 40))
     5000 = true
   <-> 1000 < 5000).
Proof.
  apply (part_paid_invoice_overdue_after_due_date
           (unpaid_dated_invoice 1000) (Py.of_int 40) 5000);
    apply ltb_lt; reflexivity.
Defined.

(** X10.  A task marked completed is never overdue, at any time and
    whatever its due date, and its progress is 100; marking it completed
    again changes nothing.  Before that, a task with a due date and any
    status other than completed (cancelled included) is overdue exactly
    when the current time is past the due date, and a task without a due
    date never is. *)
Theorem completed_task_is_never_overdue :
  (forall (t : Task.t) (utcnow : Z),
      Task.is_overdue (Task.mark_completed t) utcnow = false /\
      Task.progress_percent (Task.mark_completed t) = 100 /\
      Task.due_date (Task.mark_completed t) = Task.due_date t /\
      Task.mark_completed (Task.mark_completed t) = Task.mark_completed t) /\
  (forall (t : Task.t) (due utcnow : Z),
      Task.due_date t = Some due ->
      Task.status t <> Task.COMPLETED ->
      (Task.is_overdue t utcnow = true <-> due < utcnow)) /\
  (forall (t : Task.t) (utcnow : Z),
      Task.due_date t = None -> Task.is_overdue t utcnow = false).
Proof.
  split; [| split].
  - intros t utcnow. unfold Task.is_overdue, Task.mark_completed.
    cbn [Task.due_date Task.status Task.progress_percent].
    destruct (Task.due_date t); repeat split.
  - intros t due utcnow Hd Hs. unfold Task.is_overdue. rewrite Hd.
    destruct (Task.status t); try contradiction; cbn [Task.status_eqb negb];
      rewrite Z.gtb_ltb; apply Z.ltb_lt.
  - intros t utcnow Hd. unfold Task.is_overdue. rewrite Hd. reflexivity.
Qed.

(** ** Products and pricing tiers *)

(** X11.  For a product that tracks inventory with a known stock and a
    positive low-stock threshold, out of stock implies low stock.  With no
    threshold, or a threshold of 0, [is_low_stock] is false whatever the
    stock, even at zero stock; a product that does not track inventory is
    neither; and a tracked product whose stock is unknown makes
    [is_out_of_stock] raise. *)
Theorem stock_flags :
  (forall (p : Product.t) (threshold : Z),
      Product.low_stock_threshold p = Some threshold ->
      0 < threshold ->
      Product.is_out_of_stock p = Some true ->
      Product.is_low_stock p = Some true) /\
  (forall p : Product.t,
      Product.low_stock_threshold p = None \/
      Product.low_stock_threshold p = Some 0 ->
      Product.is_low_stock p = Some false) /\
  (forall p : Product.t,
      Product.track_inventory p = false ->
      Product.is_low_stock p = Some false /\
      Product.is_out_of_stock p = Some false) /\
  (forall p : Product.t,
      Product.track_inventory p = true ->
      Product.stock_quantity p = None ->
      Product.is_out_of_stock p = None).
Proof.
  unfold Product.is_low_stock, Product.is_out_of_stock, Product.le_int.
  split; [| split; [| split]].
  - intros p threshold Ht Hpos. rewrite Ht.
    destruct (Product.track_inventory p); [| discriminate].
    destruct (Product.stock_quantity p) as [s |]; [| discriminate].
    intro H. injection H as H. apply Z.leb_le in H.
    cbn [Py.truthy_int andb].
    destruct (Z.eqb_spec threshold 0) as [E | _]; [lia |].
    cbn [negb]. f_equal. apply Z.leb_le. lia.
  - intros p [H | H]; rewrite H; [reflexivity |].
    cbn [Py.truthy_int Z.eqb negb]. rewrite Bool.andb_false_r. reflexivity.
  - intros p H. rewrite H.
    destruct (Product.low_stock_threshold p); split; reflexivity.
  - intros p Ht Hs. rewrite Ht, Hs. reflexivity.
Qed.

Lemma calculate_price_some (t : PricingTier.t) (q : Z) :
  PricingTier.min_quantity t <= q ->
  match PricingTier.max_quantity t with
  | Some m => m = 0 \/ q <= m
  | None => True
  end ->
  PricingTier.calculate_price t q
  = Some (Py.of_int q * PricingTier.unit_price t
          + Py.or0 (PricingTier.setup_fee t))%Qc.
Proof.
  intros Hmin Hmax. unfold PricingTier.calculate_price.
  destruct (PricingTier.max_quantity t) as [m |].
  - cbn [Py.truthy_int].
    destruct (Z.eqb_spec m 0) as [E | N]; cbn [negb andb].
    + destruct (Z.ltb_spec q (PricingTier.min_quantity t)); [lia |].
      reflexivity.
    + destruct (Z.gtb_spec q m); [lia |].
      destruct (Z.ltb_spec q (PricingTier.min_quantity t)); [lia |].
      reflexivity.
  - destruct (Z.ltb_spec q (PricingTier.min_quantity t)); [lia |].
    reflexivity.
Qed.

Lemma calculate_price_inv (t : PricingTier.t) (q : Z) (p : Py.Decimal) :
  PricingTier.calculate_price t q = Some p ->
  PricingTier.min_quantity t <= q /\
  match PricingTier.max_quantity t with
  | Some m => m = 0 \/ q <= m
  | None => True
  end.
Proof.
  unfold PricingTier.calculate_price.
  destruct (PricingTier.max_quantity t) as [m |].
  - cbn [Py.truthy_int].
    destruct (Z.eqb_spec m 0) as [E | N]; cbn [negb andb].
    + destruct (Z.ltb_spec q (PricingTier.min_quantity t));
        [discriminate |]. intros _. split; [lia | left; exact E].
    + destruct (Z.gtb_spec q m); [discriminate |].
      destruct (Z.ltb_spec q (PricingTier.min_quantity t));
        [discriminate |]. intros _. split; [lia | right; lia].
  - destruct (Z.ltb_spec q (PricingTier.min_quantity t));
      [discriminate |]. intros _. split; [lia | exact I].
Qed.

(** X12.  [calculate_price] returns a price exactly for the quantities of
    the tier: at least [min_quantity] and, when [max_quantity] is set and
    not 0, at most [max_quantity]; a [max_quantity] of 0 counts as no upper
    limit, like a missing one.  The price is then quantity * unit_price plus
    the setup fee (0 when there is none); outside the tier the method
    returns [None]. *)
Theorem calculate_price_defined_in_tier (t : PricingTier.t) (q : Z) :
  ((exists p : Py.Decimal, PricingTier.calculate_price t q = Some p) <->
   PricingTier.min_quantity t <= q /\
   match PricingTier.max_quantity t with
   | Some m => m = 0 \/ q <= m
   | None => True
   end) /\
  (forall p : Py.Decimal,
      PricingTier.calculate_price t q = Some p ->
      p = (Py.of_int q * PricingTier.unit_price t
           + match PricingTier.setup_fee t with
             | Some fee => fee
             | None => Py.of_int 0
             end)%Qc) /\
  (q < PricingTier.min_quantity t -> PricingTier.calculate_price t q = None).
Proof.
  split; [split | split].
  - intros (p & E). exact (calculate_price_inv t q p E).
  - intros [Hmin Hmax]. eexists. exact (calculate_price_some t q Hmin Hmax).
  - intros p E. destruct (calculate_price_inv t q p E) as [Hmin Hmax].
    rewrite (calculate_price_some t q Hmin Hmax) in E.
    injection E as <-. rewrite or0_eq. reflexivity.
  - intro H. destruct (PricingTier.calculate_price t q) as [p |] eqn:E;
      [| reflexivity].
    destruct (calculate_price_inv t q p E) as [Hmin _]. lia.
Qed.

(** X13.  Within a tier whose unit price is not negative, a larger
    quantity never costs less. *)
Theorem calculate_price_monotone
  (t : PricingTier.t) (q1 q2 : Z) (p1 p2 : Py.Decimal) :
  (Py.of_int 0 <= PricingTier.unit_price t)%Qc ->
  q1 <= q2 ->
  PricingTier.calculate_price t q1 = Some p1 ->
  PricingTier.calculate_price t q2 = Some p2 ->
  (p1 <= p2)%Qc.
Proof.
  intros Hu Hq E1 E2.
  destruct (calculate_price_inv t q1 p1 E1) as [M1 X1].
  destruct (calculate_price_inv t q2 p2 E2) as [M2 X2].
  rewrite (calculate_price_some t q1 M1 X1) in E1.
  rewrite (calculate_price_some t q2 M2 X2) in E2.
  injection E1 as <-. injection E2 as <-.
  apply Qcplus_le_compat; [| apply Qcle_refl].
  apply Qcmult_le_compat_r; [apply of_int_le; exact Hq | exact Hu].
Qed.

Lemma calculate_price_monotone_example : (Py.of_int 70 <= Py.of_int 120)%Qc.
Proof.
  apply (calculate_price_monotone bulk_tier 10 20).
  - apply leb_le. reflexivity.
  - lia.
  - reflexivity.
  - reflexivity.
Defined.

(** ** Lead scores: steps, activity and time *)

Lemma behavioral_points_sum (l : Lead.t) :
  Lead.behavioral_points l
  = visit_points (Lead.website_visits l)
    + open_points (Lead.email_opens l)
    + click_points (Lead.email_clicks l).
Proof.
  unfold Lead.behavioral_points, visit_points, open_points, click_points.
  repeat match goal with
         | |- context [if ?c then _ else _] => destruct c
         end; reflexivity.
Qed.

Lemma engagement_points_sum (l : Lead.t) (utcnow : Z) :
  Lead.engagement_points l utcnow
  = interaction_points (Lead.total_interactions l)
    + match Lead.last_contact_date l with
      | Some d => recency_points (Py.days_between utcnow d)
      | None => 0
      end.
Proof.
  unfold Lead.engagement_points, interaction_points, recency_points.
  destruct (Lead.last_contact_date l);
    repeat match goal with
           | |- context [if ?c then _ else _] => destruct c
           end; reflexivity.
Qed.

Ltac split_steps :=
  repeat match goal with
         | |- context [?a >? ?b] => destruct (Z.gtb_spec a b)
         | |- context [?a <=? ?b] => destruct (Z.leb_spec a b)
         end.

Lemma visit_points_mono (a b : Z) : a <= b -> visit_points a <= visit_points b.
Proof. intro H. unfold visit_points. split_steps; lia. Qed.

Lemma open_points_mono (a b : Z) : a <= b -> open_points a <= open_points b.
Proof. intro H. unfold open_points. split_steps; lia. Qed.

Lemma click_points_mono (a b : Z) : a <= b -> click_points a <= click_points b.
Proof. intro H. unfold click_points. split_steps; lia. Qed.

Lemma interaction_points_mono (a b : Z) :
  a <= b -> interaction_points a <= interaction_points b.
Proof. intro H. unfold interaction_points. split_steps; lia. Qed.

Lemma recency_points_antitone (a b : Z) :
  a <= b -> recency_points b <= recency_points a.
Proof. intro H. unfold recency_points. split_steps; lia. Qed.

Lemma days_between_mono (t1 t2 d : Z) :
  t1 <= t2 -> Py.days_between t1 d <= Py.days_between t2 d.
Proof.
  intro H. unfold Py.days_between.
  apply Z.div_le_mono; [reflexivity | lia].
Qed.

(** X14.  More activity never lowers a lead's score: raising any of
    website_visits, email_opens, email_clicks and total_interactions, with
    everything else and the current time unchanged, gives a lead score and a
    quality tier at least as high. *)
Theorem lead_score_monotone_in_activity
  (l : Lead.t) (visits opens clicks interactions utcnow : Z) :
  Lead.website_visits l <= visits ->
  Lead.email_opens l <= opens ->
  Lead.email_clicks l <= clicks ->
  Lead.total_interactions l <= interactions ->
  snd (Lead.calculate_lead_score l utcnow)
  <= snd (Lead.calculate_lead_score
            (with_activity l visits opens clicks interactions) utcnow) /\
  Lead.tier (Lead.quality_for (snd (Lead.calculate_lead_score l utcnow)))
  <= Lead.tier
       (Lead.quality_for
          (snd (Lead.calculate_lead_score
                  (with_activity l visits opens clicks interactions)
                  utcnow))).
Proof.
  intros Hv Ho Hc Hi.
  assert (S : snd (Lead.calculate_lead_score l utcnow)
              <= snd (Lead.calculate_lead_score
                        (with_activity l visits opens clicks interactions)
                        utcnow)).
  { unfold Lead.calculate_lead_score. cbn [snd].
    rewrite !behavioral_points_sum, !engagement_points_sum.
    change (Lead.demographic_points
              (with_activity l visits opens clicks interactions))
      with (Lead.demographic_points l).
    cbn [with_activity Lead.website_visits Lead.email_opens Lead.email_clicks
         Lead.total_interactions Lead.last_contact_date].
    pose proof (visit_points_mono _ _ Hv).
    pose proof (open_points_mono _ _ Ho).
    pose proof (click_points_mono _ _ Hc).
    pose proof (interaction_points_mono _ _ Hi).
    lia. }
  split; [exact S | apply quality_for_monotone; exact S].
Qed.

Lemma lead_score_monotone_example :
  snd (Lead.calculate_lead_score (enterprise_cto 0) 0)
  <= snd (Lead.calculate_lead_score
            (with_activity (enterprise_cto 0) 20 6 4 11) 0).
Proof.
  apply (lead_score_monotone_in_activity (enterprise_cto 0) 20 6 4 11 0);
    cbn; lia.
Defined.

(** X15.  A lead's score never rises by the mere passing of time: with the
    lead unchanged, the score computed at a later time is at most the score
    computed earlier. *)
Theorem lead_score_decays_with_time (l : Lead.t) (t1 t2 : Z) :
  t1 <= t2 ->
  snd (Lead.calculate_lead_score l t2)
  <= snd (Lead.calculate_lead_score l t1).
Proof.
  intro H. unfold Lead.calculate_lead_score. cbn [snd].
  rewrite !engagement_points_sum.
  destruct (Lead.last_contact_date l) as [d |]; [| lia].
  pose proof (recency_points_antitone _ _ (days_between_mono t1 t2 d H)).
  lia.
Qed.

Lemma lead_score_decay_example :
  snd (Lead.calculate_lead_score (enterprise_cto 0)
                                 (40 * Py.microseconds_per_day))
  <= snd (Lead.calculate_lead_score (enterprise_cto 0) 0).
Proof.
  apply lead_score_decays_with_time. unfold Py.microseconds_per_day. lia.
Defined.

Ltac five_divides :=
  match goal with
  | |- (5 | ?v) => exists (v / 5); reflexivity
  end.

Lemma demographic_points_by_five (l : Lead.t) :
  (5 | Lead.demographic_points l).
Proof.
  unfold Lead.demographic_points.
  repeat match goal with
         | |- context [if ?c then _ else _] => destruct c
         end; five_divides.
Qed.

Lemma behavioral_points_by_five (l : Lead.t) :
  (5 | Lead.behavioral_points l).
Proof.
  unfold Lead.behavioral_points.
  repeat match goal with
         | |- context [if ?c then _ else _] => destruct c
         end; five_divides.
Qed.

Lemma engagement_points_by_five (l : Lead.t) (utcnow : Z) :
  (5 | Lead.engagement_points l utcnow).
Proof.
  unfold Lead.engagement_points.
  destruct (Lead.last_contact_date l);
    repeat match goal with
           | |- context [if ?c then _ else _] => destruct c
           end; five_divides.
Qed.

(** X16.  The lead score is always one of 0, 5, 10, ..., 100, and none of
    the three caps nor the final cap at 100 ever cuts anything off: the
    stored components are the uncapped points. *)
Theorem lead_score_steps_of_five (l : Lead.t) (utcnow : Z) :
  (exists k : Z,
      0 <= k <= 20 /\ snd (Lead.calculate_lead_score l utcnow) = 5 * k) /\
  Lead.demographic_score (fst (Lead.calculate_lead_score l utcnow))
  = Some (Lead.demographic_points l) /\
  Lead.behavioral_score (fst (Lead.calculate_lead_score l utcnow))
  = Some (Lead.behavioral_points l) /\
  Lead.engagement_score (fst (Lead.calculate_lead_score l utcnow))
  = Some (Lead.engagement_points l utcnow) /\
  snd (Lead.calculate_lead_score l utcnow)
  = Lead.demographic_points l + Lead.behavioral_points l
    + Lead.engagement_points l utcnow.
Proof.
  pose proof (demographic_points_range l) as Rd.
  pose proof (behavioral_points_range l) as Rb.
  pose proof (engagement_points_range l utcnow) as Re.
  destruct (demographic_points_by_five l) as [kd Ed].
  destruct (behavioral_points_by_five l) as [kb Eb].
  destruct (engagement_points_by_five l utcnow) as [ke Ee].
  unfold Lead.calculate_lead_score.
  cbn [fst snd Lead.demographic_score Lead.behavioral_score
       Lead.engagement_score].
  rewrite !Z.min_l by lia.
  split; [| repeat split].
  exists (kd + kb + ke). lia.
Qed.

(** X17.  A lead without behavioral activity is never hot: with no website
    visit, at most two email opens and no email click the score is at most
    60, so the quality is cold or warm whatever the profile and the
    engagement. *)
Theorem lead_without_activity_is_never_hot (l : Lead.t) (utcnow : Z) :
  Lead.website_visits l <= 0 ->
  Lead.email_opens l <= 2 ->
  Lead.email_clicks l <= 0 ->
  snd (Lead.calculate_lead_score l utcnow) <= 60 /\
  Lead.quality (fst (Lead.calculate_lead_score l utcnow)) <> Some Lead.HOT.
Proof.
  intros Hv Ho Hc.
  pose proof (demographic_points_range l) as Rd.
  pose proof (engagement_points_range l utcnow) as Re.
  assert (B : Lead.behavioral_points l = 0).
  { rewrite behavioral_points_sum.
    unfold visit_points, open_points, click_points. split_steps; lia. }
  unfold Lead.calculate_lead_score.
  cbn [fst snd Lead.quality]. rewrite B.
  split; [lia |].
  intro Q. injection Q as Q. unfold Lead.quality_for in Q.
  match type of Q with
  | context [?s >=? 80] =>
      destruct (s >=? 80) eqn:E; [apply Z.geb_le in E; lia |]
  end.
  match type of Q with
  | context [?s >=? 50] => destruct (s >=? 50); discriminate Q
  end.
Qed.

Lemma lead_without_activity_example :
  snd (Lead.calculate_lead_score (with_activity (enterprise_cto 0) 0 2 0 11) 0)
  <= 60 /\
  Lead.quality
    (fst (Lead.calculate_lead_score
            (with_activity (enterprise_cto 0) 0 2 0 11) 0))
  <> Some Lead.HOT.
Proof.
  apply lead_without_activity_is_never_hot; cbn; lia.
Defined.

(** ** Health over time *)

Section OrderFacts.

Local Open Scope Qc_scope.

Lemma min_mono_l (a b c : Py.Decimal) : a <= b -> Py.min a c <= Py.min b c.
Proof.
  intro H. apply min_glb.
  - apply (Qcle_trans _ a); [apply min_le_l | exact H].
  - apply min_le_r.
Qed.

Lemma of_int_lt (a b : Z) : (a < b)%Z -> Py.of_int a < Py.of_int b.
Proof.
  intro H. unfold Qclt, Py.of_int, Q2Qc. cbn [this].
  rewrite !Qred_correct. rewrite <- Zlt_Qlt. exact H.
Qed.

Lemma inv_pos (x : Py.Decimal) : Py.of_int 0 < x -> Py.of_int 0 < / x.
Proof.
  unfold Qclt, Qcinv, Py.of_int, Q2Qc. cbn [this].
  rewrite !Qred_correct. apply Qinv_lt_0_compat.
Qed.

Lemma recency_contribution_antitone (c : Customer.t) (t1 t2 : Z) :
  (t1 <= t2)%Z -> recency_contribution c t2 <= recency_contribution c t1.
Proof.
  intro H. unfold recency_contribution.
  destruct (Customer.last_contact_date c) as [d |]; [| apply Qcle_refl].
  pose proof (days_between_mono t1 t2 d H) as D.
  destruct (Z.leb_spec (Py.days_between t2 d) 30),
    (Z.leb_spec (Py.days_between t1 d) 30),
    (Z.leb_spec (Py.days_between t2 d) 90),
    (Z.leb_spec (Py.days_between t1 d) 90);
    try lia; apply leb_le; reflexivity.
Qed.

End OrderFacts.

(** X18.  A customer's health score never rises by the mere passing of
    time.  Whether [calculate_health_score] returns or raises does not
    depend on the time; when it returns, the score computed at a later time
    is at most the score computed earlier; and without a contact date the
    outcome does not depend on the time at all. *)
Theorem health_score_decays_with_time :
  (forall (c : Customer.t) (t1 t2 : Z),
      t1 <= t2 ->
      match Customer.calculate_health_score c t1,
            Customer.calculate_health_score c t2 with
      | Some v1, Some v2 => (PyNum.value v2 <= PyNum.value v1)%Qc
      | None, None => True
      | _, _ => False
      end) /\
  (forall (c : Customer.t) (t1 t2 : Z),
      Customer.last_contact_date c = None ->
      Customer.calculate_health_score c t1
      = Customer.calculate_health_score c t2).
Proof.
  split.
  - intros c t1 t2 H.
    pose proof (calculate_health_score_outcome c t1) as O1.
    pose proof (calculate_health_score_outcome c t2) as O2.
    destruct (type_clash c).
    + rewrite O1, O2. exact I.
    + destruct O1 as (v1 & E1). destruct O2 as (v2 & E2).
      rewrite E1, E2.
      rewrite (calculate_health_score_value c t1 v1 E1),
        (calculate_health_score_value c t2 v2 E2).
      apply min_mono_l.
      apply Qcplus_le_compat; [| apply Qcle_refl].
      apply Qcplus_le_compat; [apply Qcle_refl |].
      apply recency_contribution_antitone. exact H.
  - intros c t1 t2 H. unfold Customer.calculate_health_score.
    unfold Customer.add_recency. rewrite H. reflexivity.
Qed.

(** ** Funnel rates *)

Section RateFacts.

Local Open Scope Qc_scope.

Lemma rate_le (a b c : Z) : (0 < b)%Z -> (a <= c)%Z -> rate a b <= rate c b.
Proof.
  intros Hb H. unfold rate, Qcdiv.
  apply Qcmult_le_compat_r; [| apply leb_le; reflexivity].
  apply Qcmult_le_compat_r; [apply of_int_le; exact H |].
  apply Qclt_le_weak, inv_pos, of_int_lt, Hb.
Qed.

Lemma rate_lt (a b c : Z) : (0 < b)%Z -> (a < c)%Z -> rate a b < rate c b.
Proof.
  intros Hb H. unfold rate, Qcdiv.
  apply Qcmult_lt_compat_r; [apply ltb_lt; reflexivity |].
  apply Qcmult_lt_compat_r; [apply inv_pos, of_int_lt, Hb |].
  apply of_int_lt. exact H.
Qed.

Lemma rate_full (b : Z) : (0 < b)%Z -> rate b b = Py.of_int 100.
Proof.
  intro Hb. unfold rate, Qcdiv. rewrite Qcmult_inv_r.
  - apply Qcmult_1_l.
  - intro E. apply of_int_lt in Hb. rewrite E in Hb.
    exact (Qclt_not_eq _ _ Hb eq_refl).
Qed.

Lemma rate_none (b : Z) : rate 0 b = Py.of_int 0.
Proof.
  unfold rate, Qcdiv. change (Py.of_int 0) with 0.
  rewrite !Qcmult_0_l. reflexivity.
Qed.

Lemma rate_range (a b : Z) :
  (0 < b)%Z ->
  ((a <= b)%Z <-> rate a b <= Py.of_int 100) /\
  ((0 <= a)%Z <-> Py.of_int 0 <= rate a b).
Proof.
  intro Hb. split; split; intro H.
  - rewrite <- (rate_full b Hb). apply rate_le; assumption.
  - destruct (Z.le_gt_cases a b) as [L | G]; [exact L |].
    exfalso. apply (rate_lt b b a Hb) in G. rewrite (rate_full b Hb) in G.
    exact (Qclt_not_le _ _ G H).
  - rewrite <- (rate_none b). apply rate_le; assumption.
  - destruct (Z.le_gt_cases 0 a) as [L | G]; [exact L |].
    exfalso. apply (rate_lt a b 0 Hb) in G. rewrite rate_none in G.
    exact (Qclt_not_le _ _ G H).
Qed.

End RateFacts.

(** X19.  A computed rate is a percentage only as far as the counters form
    a funnel: with a positive denominator, the rate is at most 100 exactly
    when the numerator does not exceed the denominator, and at least 0
    exactly when the numerator is not negative.  So for a campaign with
    0 <= converted <= clicked <= opened <= delivered <= sent every rate that
    [calculate_metrics] computes lies between 0 and 100, and a campaign with
    more deliveries than sends gets a delivery rate above 100. *)
Theorem rates_are_percentages_on_a_funnel :
  (forall a b : Z,
      0 < b ->
      exists r : Py.Decimal,
        percentage a b = Some r /\
        (a <= b <-> (r <= Py.of_int 100)%Qc) /\
        (0 <= a <-> (Py.of_int 0 <= r)%Qc)) /\
  (forall c : Campaign.t,
      0 <= Campaign.converted_count c <= Campaign.clicked_count c ->
      Campaign.clicked_count c <= Campaign.opened_count c ->
      Campaign.opened_count c <= Campaign.delivered_count c ->
      Campaign.delivered_count c <= Campaign.sent_count c ->
      exists c' : Campaign.t,
        Campaign.calculate_metrics c = Some c' /\
        (0 < Campaign.sent_count c ->
         exists r, Campaign.delivery_rate c' = Some r /\
                   (Py.of_int 0 <= r <= Py.of_int 100)%Qc) /\
        (0 < Campaign.delivered_count c ->
         exists r, Campaign.open_rate c' = Some r /\
                   (Py.of_int 0 <= r <= Py.of_int 100)%Qc) /\
        (0 < Campaign.opened_count c ->
         exists r, Campaign.click_rate c' = Some r /\
                   (Py.of_int 0 <= r <= Py.of_int 100)%Qc) /\
        (0 < Campaign.clicked_count c ->
         exists r, Campaign.conversion_rate c' = Some r /\
                   (Py.of_int 0 <= r <= Py.of_int 100)%Qc)).
Proof.
  split.
  - intros a b Hb. exists (rate a b).
    split; [apply percentage_pos; exact Hb | apply rate_range; exact Hb].
  - intros c H1 H2 H3 H4. eexists. split; [apply calculate_metrics_eq |].
    cbn [Campaign.delivery_rate Campaign.open_rate Campaign.click_rate
         Campaign.conversion_rate].
    repeat split; intro P;
      match goal with
      | |- exists r, (if ?x >? 0 then _ else _) = _ /\ _ =>
          destruct (Z.gtb_spec x 0); [| lia]
      end;
      eexists; (split; [reflexivity |]);
      match goal with
      | H : 0 < ?b |- (_ <= rate ?a ?b <= _)%Qc =>
          destruct (rate_range a b H) as [[U _] [L _]];
          split; [apply L | apply U]; lia
      end.
Qed.

(** ** Payments in sequence *)

Ltac to_Q :=
  unfold Qcle, Qclt, Qcminus, Qcplus, Qcopp, Py.of_int, Q2Qc in *;
  cbn [this] in *;
  repeat match goal with
         | H : context [Qred _] |- _ => rewrite !Qred_correct in H
         end;
  rewrite ?Qred_correct;
  unfold inject_Z in *.

Section SequenceFacts.

Local Open Scope Qc_scope.

Lemma later_due_le (total p b : Py.Decimal) :
  Py.of_int 0 <= b -> total - (p + b) <= total - p.
Proof. intro H. to_Q. lra. Qed.

Lemma later_paid_ge (p b : Py.Decimal) : Py.of_int 0 <= b -> p <= p + b.
Proof. intro H. to_Q. lra. Qed.

End SequenceFacts.

(** X20.  Payments add up: a payment followed by a second payment that is
    not negative leaves the invoice exactly as one payment of the sum would
    (amounts, status and paid date alike). *)
Theorem payments_add_up (inv : Invoice.t) (a b : Py.Decimal) :
  (Py.of_int 0 <= b)%Qc ->
  Invoice.add_payment (Invoice.add_payment inv a) b
  = Invoice.add_payment inv (a + b)%Qc.
Proof.
  intro Hb. destruct inv as [st sub tax disc total paid due rate pd its].
  pose proof (later_due_le total (paid + a)%Qc b Hb) as D.
  pose proof (later_paid_ge (paid + a)%Qc b Hb) as P.
  unfold Invoice.add_payment.
  cbn [Invoice.set_paid_amount Invoice.set_due_amount Invoice.paid_amount
       Invoice.due_amount Invoice.total_amount].
  rewrite (Qcplus_assoc paid a b).
  destruct (Py.leb (total - (paid + a))%Qc (Py.of_int 0)) eqn:L1;
    [| destruct (Py.ltb (Py.of_int 0) (paid + a)%Qc) eqn:P1];
    cbn [Invoice.set_status Invoice.set_paid_date Invoice.set_paid_amount
         Invoice.set_due_amount Invoice.status
         Invoice.subtotal Invoice.tax_amount Invoice.discount_amount
         Invoice.total_amount Invoice.paid_amount Invoice.due_amount
         Invoice.tax_rate Invoice.paid_date Invoice.items];
    (destruct (Py.leb (total - (paid + a + b))%Qc (Py.of_int 0)) eqn:L2;
     [| destruct (Py.ltb (Py.of_int 0) (paid + a + b)%Qc) eqn:P2]);
    try reflexivity; exfalso.
  - apply leb_le in L1. apply leb_gt in L2.
    exact (Qclt_not_le _ _ L2 (Qcle_trans _ _ _ D L1)).
  - apply leb_le in L1. apply leb_gt in L2.
    exact (Qclt_not_le _ _ L2 (Qcle_trans _ _ _ D L1)).
  - apply ltb_lt in P1. apply ltb_ge in P2.
    exact (Qclt_not_le _ _ P1 (Qcle_trans _ _ _ P P2)).
Qed.

Lemma payments_add_up_example :
  Invoice.add_payment (Invoice.add_payment unpaid_invoice (Py.of_int 40))
                      (Py.of_int 60)
  = Invoice.add_payment unpaid_invoice (Py.of_int 40 + Py.of_int 60)%Qc.
Proof.
  apply payments_add_up. apply leb_le. reflexivity.
Defined.

(** X21.  Recomputing the totals and applying a payment commute on every
    amount: whichever comes first, subtotal, tax_amount, total_amount,
    paid_amount and due_amount end up the same, with due_amount =
    total_amount - paid_amount.  [calculate_totals] itself never touches the
    status or the paid date, so only these two can depend on the order. *)
Theorem totals_and_payment_commute_on_amounts
  (inv : Invoice.t) (amount : Py.Decimal) :
  let first_pay :=
    Invoice.calculate_totals (Invoice.add_payment inv amount) in
  let first_totals :=
    Invoice.add_payment (Invoice.calculate_totals inv) amount in
  Invoice.subtotal first_pay = Invoice.subtotal first_totals /\
  Invoice.tax_amount first_pay = Invoice.tax_amount first_totals /\
  Invoice.total_amount first_pay = Invoice.total_amount first_totals /\
  Invoice.paid_amount first_pay = Invoice.paid_amount first_totals /\
  Invoice.due_amount first_pay = Invoice.due_amount first_totals /\
  Invoice.due_amount first_pay
  = (Invoice.total_amount first_pay - Invoice.paid_amount first_pay)%Qc /\
  Invoice.paid_amount first_pay = (Invoice.paid_amount inv + amount)%Qc /\
  Invoice.items first_pay = Invoice.items inv /\
  Invoice.items first_totals = Invoice.items inv.
Proof.
  destruct inv as [st sub tax disc total paid due rate pd its].
  cbv zeta. unfold Invoice.add_payment, Invoice.calculate_totals.
  cbn [Invoice.set_paid_amount Invoice.set_due_amount Invoice.set_subtotal
       Invoice.set_tax_amount Invoice.set_total_amount Invoice.paid_amount
       Invoice.due_amount Invoice.total_amount Invoice.subtotal
       Invoice.tax_amount Invoice.tax_rate Invoice.discount_amount
       Invoice.items].
  repeat match goal with
         | |- context [if ?c then _ else _] => destruct c
         end;
    repeat split.
Qed.

(** ** Percentages of amounts *)

Section PercentFacts.

Local Open Scope Qc_scope.

Lemma fraction_range (p : Py.Decimal) :
  Py.of_int 0 <= p -> p <= Py.of_int 100 ->
  Py.of_int 0 <= p / Py.of_int 100 /\ p / Py.of_int 100 <= Py.of_int 1.
Proof.
  intros H0 H100. unfold Qcdiv. split.
  - apply mult_nonneg; [exact H0 | apply leb_le; reflexivity].
  - replace (Py.of_int 1) with (Py.of_int 100 * / Py.of_int 100)
      by (apply Qc_is_canon; reflexivity).
    apply Qcmult_le_compat_r; [exact H100 | apply leb_le; reflexivity].
Qed.

Lemma percent_of_range (x p : Py.Decimal) :
  Py.of_int 0 <= x -> Py.of_int 0 <= p -> p <= Py.of_int 100 ->
  Py.of_int 0 <= x * (p / Py.of_int 100) /\ x * (p / Py.of_int 100) <= x.
Proof.
  intros Hx H0 H100. destruct (fraction_range p H0 H100) as [F0 F1]. split.
  - apply mult_nonneg; assumption.
  - rewrite Qcmult_comm. rewrite <- (Qcmult_1_l x) at 2.
    apply Qcmult_le_compat_r; assumption.
Qed.

Lemma minus_nonneg (s d : Py.Decimal) : d <= s -> Py.of_int 0 <= s - d.
Proof. intro H. to_Q. lra. Qed.

Lemma minus_le (s d : Py.Decimal) : Py.of_int 0 <= d -> s - d <= s.
Proof. intro H. to_Q. lra. Qed.

Lemma truthy_pos (p : Py.Decimal) :
  Py.of_int 0 < p -> Py.truthy (Some p) = true.
Proof.
  intro H. cbn [Py.truthy]. apply Bool.negb_true_iff.
  destruct (Py.eqb p (Py.of_int 0)) eqn:E; [| reflexivity].
  apply eqb_eq in E. subst p. exfalso. exact (Qclt_not_eq _ _ H eq_refl).
Qed.

End PercentFacts.

(** X22.  For an invoice item with a quantity and a unit price that are
    not negative, a discount percentage in (0, 100] and a positive tax rate,
    [calculate_total] stores a discount between 0 and the subtotal and a tax
    that is not negative, and the total it stores and returns is the
    subtotal less the discount plus the tax, never below the discounted
    amount and never negative. *)
Theorem item_total_in_range (i : InvoiceItem.t) (p r : Py.Decimal) :
  (Py.of_int 0 <= InvoiceItem.quantity i)%Qc ->
  (Py.of_int 0 <= InvoiceItem.unit_price i)%Qc ->
  InvoiceItem.discount_percent i = Some p ->
  (Py.of_int 0 < p)%Qc -> (p <= Py.of_int 100)%Qc ->
  InvoiceItem.tax_rate i = Some r ->
  (Py.of_int 0 < r)%Qc ->
  exists d t : Py.Decimal,
    InvoiceItem.discount_amount (fst (InvoiceItem.calculate_total i)) = Some d
    /\ InvoiceItem.tax_amount (fst (InvoiceItem.calculate_total i)) = Some t
    /\ (Py.of_int 0 <= d)%Qc
    /\ (d <= InvoiceItem.quantity i * InvoiceItem.unit_price i)%Qc
    /\ (Py.of_int 0 <= t)%Qc
    /\ snd (InvoiceItem.calculate_total i)
       = (InvoiceItem.quantity i * InvoiceItem.unit_price i - d + t)%Qc
    /\ InvoiceItem.total_amount (fst (InvoiceItem.calculate_total i))
       = snd (InvoiceItem.calculate_total i)
    /\ (InvoiceItem.quantity i * InvoiceItem.unit_price i - d
        <= snd (InvoiceItem.calculate_total i))%Qc
    /\ (Py.of_int 0 <= snd (InvoiceItem.calculate_total i))%Qc.
Proof.
  intros Hq Hu Hd Hp0 Hp100 Ht Hr.
  rewrite calculate_total_eq. cbv zeta.
  cbn [fst snd InvoiceItem.discount_amount InvoiceItem.tax_amount
       InvoiceItem.total_amount].
  unfold applied_tax, applied_discount. rewrite Hd, Ht.
  rewrite (truthy_pos p Hp0), (truthy_pos r Hr).
  set (s := (InvoiceItem.quantity i * InvoiceItem.unit_price i)%Qc).
  assert (Hs : (Py.of_int 0 <= s)%Qc) by (apply mult_nonneg; assumption).
  destruct (percent_of_range s p Hs (Qclt_le_weak _ _ Hp0) Hp100) as [D0 D1].
  set (d := (s * (p / Py.of_int 100))%Qc) in *.
  pose proof (minus_nonneg s d D1) as A0.
  assert (T0 : (Py.of_int 0 <= (s - d) * (r / Py.of_int 100))%Qc).
  { apply mult_nonneg; [exact A0 |]. unfold Qcdiv.
    apply mult_nonneg; [apply Qclt_le_weak, Hr | apply leb_le; reflexivity]. }
  set (t := ((s - d) * (r / Py.of_int 100))%Qc) in *.
  exists d, t. repeat split; try assumption.
  - apply later_paid_ge. exact T0.
  - apply plus_nonneg; assumption.
Qed.

Lemma item_total_in_range_example :
  exists d t : Py.Decimal,
    InvoiceItem.discount_amount
      (fst (InvoiceItem.calculate_total scenario_item)) = Some d
    /\ InvoiceItem.tax_amount
         (fst (InvoiceItem.calculate_total scenario_item)) = Some t
    /\ (Py.of_int 0 <= d)%Qc
    /\ (d <= InvoiceItem.quantity scenario_item
             * InvoiceItem.unit_price scenario_item)%Qc
    /\ (Py.of_int 0 <= t)%Qc
    /\ snd (InvoiceItem.calculate_total scenario_item)
       = (InvoiceItem.quantity scenario_item
          * InvoiceItem.unit_price scenario_item - d + t)%Qc
    /\ InvoiceItem.total_amount
         (fst (InvoiceItem.calculate_total scenario_item))
       = snd (InvoiceItem.calculate_total scenario_item)
    /\ (InvoiceItem.quantity scenario_item
        * InvoiceItem.unit_price scenario_item - d
        <= snd (InvoiceItem.calculate_total scenario_item))%Qc
    /\ (Py.of_int 0 <= snd (InvoiceItem.calculate_total scenario_item))%Qc.
Proof.
  apply (item_total_in_range scenario_item (Py.of_int 10) (Py.of_int 5));
    try reflexivity; try (apply leb_le; reflexivity);
    apply ltb_lt; reflexivity.
Defined.

(** ** Opportunities *)

Lemma opportunity_product_total_eq (o : OpportunityProduct.t) :
  OpportunityProduct.calculate_total o
  = let subtotal :=
      (Py.of_int (OpportunityProduct.quantity o)
       * OpportunityProduct.unit_price o)%Qc in
    let discount :=
      if Py.truthy (OpportunityProduct.discount_percent o)
      then match OpportunityProduct.discount_percent o with
           | Some p => Some (subtotal * (p / Py.of_int 100))%Qc
           | None => None
           end
      else OpportunityProduct.discount_amount o in
    let total :=
      (subtotal - match discount with
                  | Some d => d
                  | None => Py.of_int 0
                  end)%Qc in
    (OpportunityProduct.mk (OpportunityProduct.quantity o)
                           (OpportunityProduct.unit_price o)
                           (OpportunityProduct.discount_percent o)
                           discount total,
     total).
Proof.
  destruct o as [q up dp da tot].
  unfold OpportunityProduct.calculate_total.
  cbn [OpportunityProduct.quantity OpportunityProduct.unit_price
       OpportunityProduct.discount_percent
       OpportunityProduct.discount_amount OpportunityProduct.total_amount].
  change (Py.truthy None) with false.
  destruct dp as [p |]; [destruct (Py.truthy (Some p)) |];
    cbn [OpportunityProduct.quantity OpportunityProduct.unit_price
         OpportunityProduct.discount_percent
         OpportunityProduct.discount_amount
         OpportunityProduct.total_amount];
    rewrite ?or0_eq; reflexivity.
Qed.

(** X23.  [OpportunityProduct.calculate_total] is idempotent.  With a
    quantity and a unit price that are not negative and a discount
    percentage in (0, 100] the total lies between 0 and quantity *
    unit_price and the discount stored is their difference; with no
    percentage, or a percentage of 0, the discount already stored on the
    line is subtracted and left as it is. *)
Theorem opportunity_product_total :
  (forall o : OpportunityProduct.t,
      OpportunityProduct.calculate_total
        (fst (OpportunityProduct.calculate_total o))
      = OpportunityProduct.calculate_total o) /\
  (forall (o : OpportunityProduct.t) (p : Py.Decimal),
      0 <= OpportunityProduct.quantity o ->
      (Py.of_int 0 <= OpportunityProduct.unit_price o)%Qc ->
      OpportunityProduct.discount_percent o = Some p ->
      (Py.of_int 0 < p)%Qc -> (p <= Py.of_int 100)%Qc ->
      (Py.of_int 0 <= snd (OpportunityProduct.calculate_total o))%Qc /\
      (snd (OpportunityProduct.calculate_total o)
       <= Py.of_int (OpportunityProduct.quantity o)
          * OpportunityProduct.unit_price o)%Qc /\
      OpportunityProduct.discount_amount
        (fst (OpportunityProduct.calculate_total o))
      = Some (Py.of_int (OpportunityProduct.quantity o)
              * OpportunityProduct.unit_price o
              * (p / Py.of_int 100))%Qc) /\
  (forall o : OpportunityProduct.t,
      OpportunityProduct.discount_percent o = None \/
      OpportunityProduct.discount_percent o = Some (Py.of_int 0) ->
      snd (OpportunityProduct.calculate_total o)
      = (Py.of_int (OpportunityProduct.quantity o)
         * OpportunityProduct.unit_price o
         - match OpportunityProduct.discount_amount o with
           | Some d => d
           | None => Py.of_int 0
           end)%Qc /\
      OpportunityProduct.discount_amount
        (fst (OpportunityProduct.calculate_total o))
      = OpportunityProduct.discount_amount o).
Proof.
  split; [| split].
  - intro o. rewrite (opportunity_product_total_eq o). cbv zeta. cbn [fst].
    rewrite opportunity_product_total_eq. cbv zeta.
    cbn [OpportunityProduct.quantity OpportunityProduct.unit_price
         OpportunityProduct.discount_percent
         OpportunityProduct.discount_amount].
    destruct (OpportunityProduct.discount_percent o) as [p |];
      [destruct (Py.truthy (Some p)) |]; reflexivity.
  - intros o p Hq Hu Hd Hp0 Hp100.
    rewrite opportunity_product_total_eq. cbv zeta.
    cbn [fst snd OpportunityProduct.discount_amount]. rewrite Hd.
    rewrite (truthy_pos p Hp0).
    assert (Hs : (Py.of_int 0
                  <= Py.of_int (OpportunityProduct.quantity o)
                     * OpportunityProduct.unit_price o)%Qc)
      by (apply mult_nonneg; [apply (of_int_le 0); exact Hq | exact Hu]).
    destruct (percent_of_range _ p Hs (Qclt_le_weak _ _ Hp0) Hp100)
      as [D0 D1].
    split; [apply minus_nonneg; exact D1 |].
    split; [apply minus_le; exact D0 | reflexivity].
  - intros o H. rewrite opportunity_product_total_eq. cbv zeta.
    cbn [fst snd OpportunityProduct.discount_amount].
    destruct H as [H | H]; rewrite H; split; reflexivity.
Qed.

Lemma opportunity_product_example :
  (Py.of_int 0 <= snd (OpportunityProduct.calculate_total discounted_line))%Qc
  /\ (snd (OpportunityProduct.calculate_total discounted_line)
      <= Py.of_int 600)%Qc.
Proof.
  destruct opportunity_product_total as (_ & H & _).
  destruct (H discounted_line (Py.of_int 25)) as (L & U & _).
  - cbn. lia.
  - apply leb_le. reflexivity.
  - reflexivity.
  - apply ltb_lt. reflexivity.
  - apply leb_le. reflexivity.
  - split; [exact L |].
    apply (Qcle_trans _ _ _ U). apply leb_le. reflexivity.
Defined.

(** X24.  [calculate_sales_cycle] stores and returns the number of whole
    days from creation to close, rounded down: it is negative exactly when
    the close date lies before the creation date (by however little), and
    0 for a close less than a day after creation.  If either date is
    missing the stored value is returned untouched. *)
Theorem sales_cycle_days_floor :
  (forall (o : OpportunityDates.t) (created closed : Z),
      OpportunityDates.created_at o = Some created ->
      OpportunityDates.actual_close_date o = Some closed ->
      exists d : Z,
        snd (OpportunityDates.calculate_sales_cycle o) = Some d /\
        OpportunityDates.sales_cycle_days
          (fst (OpportunityDates.calculate_sales_cycle o)) = Some d /\
        d * Py.microseconds_per_day <= closed - created
        < (d + 1) * Py.microseconds_per_day /\
        (d < 0 <-> closed < created) /\
        (d = 0 <-> created <= closed < created + Py.microseconds_per_day)) /\
  (forall o : OpportunityDates.t,
      OpportunityDates.created_at o = None \/
      OpportunityDates.actual_close_date o = None ->
      OpportunityDates.calculate_sales_cycle o
      = (o, OpportunityDates.sales_cycle_days o)).
Proof.
  split.
  - intros o created closed Hc Hd.
    unfold OpportunityDates.calculate_sales_cycle. rewrite Hc, Hd.
    cbn [fst snd OpportunityDates.sales_cycle_days].
    exists (Py.days_between closed created).
    split; [reflexivity | split; [reflexivity |]].
    unfold Py.days_between.
    assert (P : 0 < Py.microseconds_per_day) by reflexivity.
    pose proof (Z.mul_div_le (closed - created) _ P) as L.
    pose proof (Z.mul_succ_div_gt (closed - created) _ P) as U.
    set (d := (closed - created) / Py.microseconds_per_day) in *.
    nia.
  - intros o H. unfold OpportunityDates.calculate_sales_cycle.
    destruct o as [c a s]. cbn [OpportunityDates.created_at
      OpportunityDates.actual_close_date] in *.
    destruct H as [-> | ->]; [destruct a |]; reflexivity.
Qed.

(** ** Names *)

Lemma truthy_str_false (s : string) :
  CustomerName.truthy_str (Some s) = false -> s = EmptyString.
Proof.
  cbn [CustomerName.truthy_str]. intro H. apply Bool.negb_false_iff in H.
  apply String.eqb_eq. exact H.
Qed.

Lemma append_length (s t : string) :
  String.length (s ++ t) = (String.length s + String.length t)%nat.
Proof.
  induction s as [| c s IH]; cbn [append String.length Nat.add];
    [reflexivity | rewrite IH; reflexivity].
Qed.

Lemma prefix_append (s t : string) : prefix s (s ++ t) = true.
Proof.
  induction s as [| c s IH]; cbn [append prefix];
    [destruct t; reflexivity |].
  destruct (ascii_dec c c) as [_ | N]; [exact IH | contradiction].
Qed.

Lemma append_same (s t : string) : (s ++ t)%string = s -> t = EmptyString.
Proof.
  intro H. apply (f_equal String.length) in H. rewrite append_length in H.
  destruct t; [reflexivity | cbn [String.length] in H; lia].
Qed.

Lemma append_empty (s : string) : (s ++ "")%string = s.
Proof.
  induction s as [| c s IH]; cbn [append]; [reflexivity | rewrite IH].
  reflexivity.
Qed.

(** X25.  A customer's [display_name] is always its [full_name]: the
    fallback to [name] in [display_name] never changes the result, because
    [full_name] is empty only when [name] itself is.  The full name is
    first_name, a space, last_name for an individual with both names set
    and not empty, and [name] in every other case (a business with both
    names set included). *)
Theorem customer_display_name_is_full_name :
  (forall c : CustomerName.t,
      CustomerName.display_name c = CustomerName.full_name c) /\
  (forall (c : CustomerName.t) (f l : string),
      CustomerName.type c = CustomerName.INDIVIDUAL ->
      CustomerName.first_name c = Some f -> f <> EmptyString ->
      CustomerName.last_name c = Some l -> l <> EmptyString ->
      CustomerName.full_name c = (f ++ " " ++ l)%string) /\
  (forall c : CustomerName.t,
      CustomerName.type c <> CustomerName.INDIVIDUAL \/
      CustomerName.truthy_str (CustomerName.first_name c) = false \/
      CustomerName.truthy_str (CustomerName.last_name c) = false ->
      CustomerName.full_name c = CustomerName.name c).
Proof.
  split; [| split].
  - intro c. unfold CustomerName.display_name.
    destruct (CustomerName.truthy_str (Some (CustomerName.full_name c)))
      eqn:T; [reflexivity |].
    apply truthy_str_false in T. revert T.
    unfold CustomerName.full_name.
    destruct (CustomerName.type c); try (intros _; reflexivity).
    destruct (CustomerName.first_name c) as [f |];
      try (intros _; reflexivity).
    destruct (CustomerName.last_name c) as [l |];
      try (intros _; reflexivity).
    destruct (andb _ _); [| intros _; reflexivity].
    intro E. apply (f_equal String.length) in E.
    rewrite append_length in E. cbn in E. lia.
  - intros c f l Ht Hf Nf Hl Nl. unfold CustomerName.full_name.
    rewrite Ht, Hf, Hl. cbn [CustomerName.truthy_str].
    destruct (String.eqb_spec f EmptyString); [contradiction |].
    destruct (String.eqb_spec l EmptyString); [contradiction |].
    reflexivity.
  - intros c H. unfold CustomerName.full_name.
    destruct (CustomerName.type c);
      try reflexivity;
      destruct (CustomerName.first_name c) as [f |]; try reflexivity;
      destruct (CustomerName.last_name c) as [l |]; try reflexivity.
    destruct H as [H | [H | H]];
      [exfalso; apply H; reflexivity | rewrite H; reflexivity |].
    rewrite H, Bool.andb_false_r. reflexivity.
Qed.

(** X26.  A contact's [display_name] always starts with its [full_name];
    the two are equal exactly when there is no job title or an empty one,
    and otherwise the display name is longer by the job title and the three
    characters of " (" and ")". *)
Theorem contact_display_name_extends_full_name (c : Contact.t) :
  prefix (Contact.full_name c) (Contact.display_name c) = true /\
  (Contact.display_name c = Contact.full_name c <->
   CustomerName.truthy_str (Contact.job_title c) = false) /\
  (forall j : string,
      Contact.job_title c = Some j -> j <> EmptyString ->
      Contact.display_name c
      = (Contact.full_name c ++ " (" ++ j ++ ")")%string /\
      String.length (Contact.display_name c)
      = (String.length (Contact.full_name c) + String.length j + 3)%nat).
Proof.
  unfold Contact.display_name. cbv zeta.
  destruct (Contact.job_title c) as [j |].
  - destruct (CustomerName.truthy_str (Some j)) eqn:T.
    + split; [apply prefix_append |]. split.
      * split; [| discriminate]. intro E. apply append_same in E.
        discriminate E.
      * intros j' Ej Nj. injection Ej as <-. split; [reflexivity |].
        rewrite !append_length. cbn [String.length]. lia.
    + split; [| split].
      * rewrite <- (append_empty (Contact.full_name c)) at 2.
        apply prefix_append.
      * split; reflexivity.
      * intros j' Ej Nj. injection Ej as <-.
        apply truthy_str_false in T. contradiction.
  - split; [| split].
    + rewrite <- (append_empty (Contact.full_name c)) at 2.
      apply prefix_append.
    + split; reflexivity.
    + intros j' Ej. discriminate Ej.
Qed.

(** ** Operand types *)

Section TypeFacts.

Local Open Scope Qc_scope.




End TypeFacts.


(** X28.  [calculate_weighted_amount] raises [TypeError] whenever the
    amount and the probability are both non-zero, and leaves the
    opportunity as it was: the product of the [Decimal] amount and the
    [float] [probability / 100] is not defined.  In every other case it
    stores and returns 0. *)
Theorem weighted_amount_raises_on_product :
  (forall (o : Opportunity.t) (a : Py.Decimal),
      Opportunity.amount o = Some a -> a <> Py.of_int 0 ->
      Opportunity.probability o <> 0 ->
      Opportunity.calculate_weighted_amount o = (o, None)) /\
  (forall o : Opportunity.t,
      Opportunity.amount o = None \/
      Opportunity.amount o = Some (Py.of_int 0) \/
      Opportunity.probability o = 0 ->
      Opportunity.calculate_weighted_amount o
      = (Opportunity.mk (Opportunity.amount o) (Opportunity.probability o)
                        (Some (Py.of_int 0)),
         Some (PyNum.Int 0))).
Proof.
  split.
  - intros o a Ea Na Np. unfold Opportunity.calculate_weighted_amount.
    rewrite Ea.
    destruct (Py.truthy (Some a)) eqn:T;
      [| apply truthy_false in T; contradiction].
    destruct (Opportunity.probability o =? 0)%Z eqn:P; [lia |].
    cbn [negb andb]. rewrite hundredth. reflexivity.
  - intros o H. unfold Opportunity.calculate_weighted_amount.
    destruct (Opportunity.amount o) as [a |]; [| reflexivity].
    destruct H as [H | [H | H]].
    + discriminate H.
    + injection H as ->. reflexivity.
    + rewrite H. cbn [Z.eqb negb]. rewrite Bool.andb_false_r. reflexivity.
Qed.
